(** * XBee_AT_SerialBreak: the AT-command session of the XBee sketch

    A shallow embedding of
    [libraries/XBee/XBee_AT_SerialBreak/XBee_AT_SerialBreak.ino]:
    the response reader [atRspReceive], the command dispatcher
    [atCommandSend], the mode-entry sequence [AtModeDefault], the failure
    reporter [exitFail] and the baud reconfiguration [DeviceSpeed].

    The sketch is straight-line code over three globals ([msLastCmd],
    [sendStr], [rspStr]) and three devices (the XBee serial port, the USB
    console and the millisecond clock).  All of them are gathered in one
    record, [World], which every function takes and returns. *)

From Stdlib Require Import String Ascii ZArith List Bool Lia.
Import ListNotations.
Local Open Scope Z_scope.

(** ** Constants of the sketch *)

Definition TIMEOUT : Z := 10000.
Definition START_WAIT : Z := 3000.            (* defined, never used *)

Definition NUL : ascii := "000"%char.
Definition CR : ascii := "013"%char.          (* 0x0D *)

(** String literals as they lie in memory: the characters, the [\0] written
    in the literal and the terminator the compiler adds.  The sketch
    defines all three and uses [OK_MSG] only. *)
Definition OK_MSG : list ascii := ["O"; "K"; NUL; NUL]%char.
Definition ERR_MSG : list ascii := ["E"; "R"; "R"; "O"; "R"; NUL; NUL]%char.
Definition TIMEOUT_MSG : list ascii := [NUL; NUL].

Definition rspStrSize : Z := 10.

(** [uint32_t] arithmetic of [Milliseconds()] and [msLastCmd]. *)
Definition wrap32 (z : Z) : Z := z mod 2 ^ 32.

(** ** C strings in [char] arrays *)

(** The characters of a buffer up to its first [\0]: what [strcmp],
    [Serial.println] and [XBee.Send] see of a [char *]. *)
Fixpoint cstr (mem : list ascii) : list ascii :=
  match mem with
  | [] => []
  | c :: mem' => if Ascii.eqb c NUL then [] else c :: cstr mem'
  end.

Definition text (mem : list ascii) : string := string_of_list_ascii (cstr mem).

Definition code (c : ascii) : Z := Z.of_N (N_of_ascii c).

(** [strcmp]: the difference of the first pair of characters that differ,
    0 when both strings end together.  A buffer that ends without a [\0]
    reads as if one followed (the sketch never gets there). *)
Fixpoint strcmp (a b : list ascii) : Z :=
  match a, b with
  | [], [] => 0
  | [], y :: _ => 0 - code y
  | x :: _, [] => code x
  | x :: a', y :: b' =>
      if Ascii.eqb x y
      then if Ascii.eqb x NUL then 0 else strcmp a' b'
      else code x - code y
  end.

(** [mem[i] = c].  A store past the end of the array is not performed. *)
Fixpoint poke (i : nat) (c : ascii) (mem : list ascii) : list ascii :=
  match mem, i with
  | [], _ => []
  | _ :: mem', O => c :: mem'
  | x :: mem', S i' => x :: poke i' c mem'
  end.

(** ** The world: globals, devices and the log *)

(** Everything the sketch does that can be seen from outside, in program
    order.  [EStamp] records a store to [msLastCmd], [ERecv] a character
    taken with [CharGet]. *)
Inductive Event : Type :=
| ESpeed (rate : Z)              (* ClearCore::XBee.Speed(rate)   *)
| EBreak (asserted : bool)       (* ClearCore::XBee.SerialBreak   *)
| EDelay (ms : Z)                (* delay(ms)                     *)
| ESend (bytes : string)         (* ClearCore::XBee.Send(str)     *)
| ERecv (c : ascii)              (* ClearCore::XBee.CharGet()     *)
| EPrint (line : string)         (* Serial.println(str)           *)
| EStamp (t : Z).                (* msLastCmd = Milliseconds()    *)

(** Time is counted in milliseconds, the resolution of [Milliseconds()].
    [feed] is what the modem is going to deliver: its [i]-th element holds
    the bytes that reach the receive queue during the [i]-th millisecond
    from now (nothing once the list is used up).  The sketch is
    deterministic, so every behaviour of a modem is one such schedule.
    Running code takes no time; time passes in [delay] and while a polling
    loop finds nothing to do. *)
Record World : Type := mkWorld {
  now : Z;                       (* Milliseconds(), a uint32_t       *)
  feed : list (list ascii);      (* bytes still to arrive, per ms    *)
  rxq : list ascii;              (* received and not yet read        *)
  baud : Z;                      (* the host's logical baud rate     *)
  brk : bool;                    (* break condition asserted         *)
  msLastCmd : Z;                 (* uint32_t msLastCmd               *)
  sendStr : list ascii;          (* char sendStr[10]                 *)
  rspStr : list ascii;           (* char rspStr[10]                  *)
  log : list Event
}.

Definition set_now (t : Z) (w : World) : World :=
  mkWorld t (feed w) (rxq w) (baud w) (brk w) (msLastCmd w) (sendStr w) (rspStr w) (log w).
Definition set_feed (f : list (list ascii)) (w : World) : World :=
  mkWorld (now w) f (rxq w) (baud w) (brk w) (msLastCmd w) (sendStr w) (rspStr w) (log w).
Definition set_rxq (q : list ascii) (w : World) : World :=
  mkWorld (now w) (feed w) q (baud w) (brk w) (msLastCmd w) (sendStr w) (rspStr w) (log w).
Definition set_baud (r : Z) (w : World) : World :=
  mkWorld (now w) (feed w) (rxq w) r (brk w) (msLastCmd w) (sendStr w) (rspStr w) (log w).
Definition set_brk (b : bool) (w : World) : World :=
  mkWorld (now w) (feed w) (rxq w) (baud w) b (msLastCmd w) (sendStr w) (rspStr w) (log w).
Definition set_msLastCmd (t : Z) (w : World) : World :=
  mkWorld (now w) (feed w) (rxq w) (baud w) (brk w) t (sendStr w) (rspStr w) (log w).
Definition set_sendStr (m : list ascii) (w : World) : World :=
  mkWorld (now w) (feed w) (rxq w) (baud w) (brk w) (msLastCmd w) m (rspStr w) (log w).
Definition set_rspStr (m : list ascii) (w : World) : World :=
  mkWorld (now w) (feed w) (rxq w) (baud w) (brk w) (msLastCmd w) (sendStr w) m (log w).
Definition emit (e : Event) (w : World) : World :=
  mkWorld (now w) (feed w) (rxq w) (baud w) (brk w) (msLastCmd w) (sendStr w) (rspStr w)
          (log w ++ [e]).

(** ** The devices *)

(** One millisecond goes by: the clock advances (and wraps at 2^32) and the
    bytes due in that millisecond join the receive queue. *)
Definition tick (w : World) : World :=
  set_feed (tl (feed w))
    (set_rxq (rxq w ++ hd [] (feed w))
       (set_now (wrap32 (now w + 1)) w)).

Fixpoint ticks (n : nat) (w : World) : World :=
  match n with
  | O => w
  | S n' => ticks n' (tick w)
  end.

Definition Milliseconds (w : World) : Z := now w.

Definition delay (ms : Z) (w : World) : World :=
  ticks (Z.to_nat ms) (emit (EDelay ms) w).

Definition println (line : string) (w : World) : World := emit (EPrint line) w.

Definition Speed_get (w : World) : Z := baud w.
Definition Speed_set (rate : Z) (w : World) : World :=
  emit (ESpeed rate) (set_baud rate w).

Definition SerialBreak (asserted : bool) (w : World) : World :=
  emit (EBreak asserted) (set_brk asserted w).

Definition Send (str : list ascii) (w : World) : World := emit (ESend (text str)) w.

Definition AvailableForRead (w : World) : bool :=
  match rxq w with [] => false | _ :: _ => true end.

(** [CharGet] hands out the oldest received byte; on an empty queue the
    library answers -1, which a [char] keeps as 0xFF. *)
Definition CharGet (w : World) : ascii * World :=
  match rxq w with
  | [] => ("255"%char, w)
  | c :: q => (c, emit (ERecv c) (set_rxq q w))
  end.

(** [(Milliseconds() - msLastCmd)] in [uint32_t]. *)
Definition elapsed (w : World) : Z := wrap32 (Milliseconds w - msLastCmd w).

(** [msLastCmd = Milliseconds();] *)
Definition stamp (w : World) : World :=
  emit (EStamp (Milliseconds w)) (set_msLastCmd (Milliseconds w) w).

(** ** [atRspReceive]

    Every caller passes the global [rspStr] for [rsp]; the parameter that
    remains is [rspLen]. *)

Definition msg_timed_out : string := "Timed out waiting for a response.".

(** The [while] loop of [atRspReceive].  An iteration that reads a byte
    takes no time; an iteration that reads nothing (no byte waiting, or no
    room left in the buffer) lasts until the next millisecond.  [fuel]
    bounds the number of iterations; [rsp_loop_fuel] shows that the fuel
    given by [atRspReceive] never runs out. *)
Fixpoint rsp_loop (fuel : nat) (rspLen : Z) (rspIndex : nat) (w : World)
  : option (bool * World) :=
  match fuel with
  | O => None
  | S fuel' =>
      if elapsed w <? TIMEOUT then
        if AvailableForRead w then
          if Z.of_nat rspIndex <? rspLen - 1 then
            let (readChar, w1) := CharGet w in
            if Ascii.eqb readChar CR then
              Some (true, println (text (rspStr w1)) w1)
            else
              let w2 := set_rspStr (poke rspIndex readChar (rspStr w1)) w1 in
              let w3 := set_rspStr (poke (S rspIndex) NUL (rspStr w2)) w2 in
              rsp_loop fuel' rspLen (S rspIndex) w3
          else rsp_loop fuel' rspLen rspIndex (tick w)
        else rsp_loop fuel' rspLen rspIndex (tick w)
      else Some (false, println msg_timed_out w)
  end.

Definition rsp_fuel (rspLen : Z) : nat := S (Z.to_nat TIMEOUT + Z.to_nat rspLen).

Definition atRspReceive (rspLen : Z) (w : World) : bool * World :=
  let w0 := set_rspStr (poke 0 NUL (rspStr w)) w in
  match rsp_loop (rsp_fuel rspLen) rspLen 0 w0 with
  | Some r => r
  | None => (false, w0)
  end.

(** ** [atCommandSend] *)

Definition stale (w : World) : bool := TIMEOUT <? elapsed w.

Definition atCommandSend (cmd : list ascii) (rspLen : Z) (w : World) : World :=
  if stale w then w                      (* return; no longer in AT mode *)
  else
    let w := Send cmd w in
    let w := println (text cmd) w in
    let w := Send [CR; NUL] w in
    let w := stamp w in
    snd (atRspReceive rspLen w).         (* the bool is dropped *)

(** ** [AtModeDefault] *)

Definition msg_forcing : string := "Forcing AT Mode with a Serial Break...".

Definition AtModeDefault (w : World) : World :=
  let w := println msg_forcing w in
  let w := SerialBreak true w in
  let w := delay 6000 w in
  let w := SerialBreak false w in
  let w := stamp w in
  let w := snd (atRspReceive rspStrSize w) in
  let w := delay 1 w in
  stamp w.

(** ** [exitFail] *)

Definition exitFail (message : string) (w : World) : World :=
  delay 600 (println message w).

(** ** [DeviceSpeed] *)

(** The [switch] on [speed]: the device code of a supported rate. *)
Definition baudCode (speed : Z) : option ascii :=
  if speed =? 2400 then Some "1"%char
  else if speed =? 4800 then Some "2"%char
  else if speed =? 9600 then Some "3"%char
  else if speed =? 19200 then Some "4"%char
  else if speed =? 38400 then Some "5"%char
  else if speed =? 57600 then Some "6"%char
  else if speed =? 115200 then Some "7"%char
  else if speed =? 230400 then Some "8"%char
  else if speed =? 460800 then Some "9"%char
  else if speed =? 921600 then Some "A"%char
  else None.

Definition msg_establish : string := "Failed to establish AT Command Mode.".
Definition msg_verify : string := "Failed to verify AT Command Mode.".
Definition msg_invalid : string := "Specified baud rate is invalid.".
Definition msg_set : string := "Failed to set the specified baud rate.".
Definition msg_write : string := "Failed to write to firmware.".
Definition msg_exit : string := "Failed to force exit AT Command Mode.".

(** What [DeviceSpeed] tests after every exchange: [strcmp(rspStr, OK_MSG)]
    is zero. *)
Definition affirmative (w : World) : bool := strcmp (rspStr w) OK_MSG =? 0.

(** [if (strcmp(rspStr, OK_MSG)) exitFail(message);] *)
Definition check (message : string) (w : World) : World :=
  if affirmative w then w else exitFail message w.

Definition lit (s : string) : list ascii := list_ascii_of_string s ++ [NUL].

(** The body of [DeviceSpeed], cut at the end of each step; [speed] is the
    local read at entry. *)
Definition exch_ForceMode (w : World) : World := AtModeDefault (Speed_set 9600 w).
Definition after_ForceMode (w : World) : World := check msg_establish (exch_ForceMode w).

Definition exch_VerifyMode (w : World) : World :=
  atCommandSend (lit "AT") rspStrSize (after_ForceMode w).
Definition after_VerifyMode (w : World) : World := check msg_verify (exch_VerifyMode w).

(** [char baudRate = '0'; switch (speed) ...] *)
Definition pick_code (speed : Z) (w : World) : ascii * World :=
  match baudCode speed with
  | Some c => (c, w)
  | None => ("0"%char, exitFail msg_invalid w)
  end.

(** [strncpy(sendStr, "ATBD ", 5); sendStr[5] = baudRate; sendStr[6] = '\0';] *)
Definition fill_sendStr (baudRate : ascii) (w : World) : World :=
  set_sendStr
    (poke 6 NUL (poke 5 baudRate
       (poke 4 " "%char (poke 3 "D"%char (poke 2 "B"%char
          (poke 1 "T"%char (poke 0 "A"%char (sendStr w)))))))) w.

Definition prep_ApplyBaud (speed : Z) (w : World) : World :=
  let (baudRate, w1) := pick_code speed (after_VerifyMode w) in
  fill_sendStr baudRate w1.
Definition exch_ApplyBaud (speed : Z) (w : World) : World :=
  let w2 := prep_ApplyBaud speed w in
  atCommandSend (sendStr w2) rspStrSize w2.
Definition after_ApplyBaud (speed : Z) (w : World) : World :=
  check msg_set (exch_ApplyBaud speed w).

Definition exch_Persist (speed : Z) (w : World) : World :=
  atCommandSend (lit "ATWR") rspStrSize (after_ApplyBaud speed w).
Definition after_Persist (speed : Z) (w : World) : World :=
  check msg_write (exch_Persist speed w).

Definition exch_ExitMode (speed : Z) (w : World) : World :=
  atCommandSend (lit "ATCN") rspStrSize (after_Persist speed w).
Definition after_ExitMode (speed : Z) (w : World) : World :=
  check msg_exit (exch_ExitMode speed w).

Definition DeviceSpeed (w : World) : World :=
  let speed := Speed_get w in
  Speed_set speed (after_ExitMode speed w).

(** ** Worlds to run the sketch in *)

(** After reset: globals zeroed, nothing received, the log empty. *)
Definition boot (rate : Z) (f : list (list ascii)) : World :=
  mkWorld 0 f [] rate false 0 (repeat NUL 10) (repeat NUL 10) [].

Definition chars (s : string) : list ascii := list_ascii_of_string s.

(** A host set to 19200 and a modem that never answers. *)
Definition w_silent : World := boot 19200 [].

(** ** Notions used to state the properties *)

(** The bytes on their way to the reader, in the order they will be read. *)
Definition pending (w : World) : list ascii := rxq w ++ concat (feed w).

(** [grows P w w']: from [w] to [w'] the log was extended, by events that
    all satisfy [P]. *)
Definition grows (P : Event -> Prop) (w w' : World) : Prop :=
  exists l, log w' = log w ++ l /\ Forall P l.

(** The stores of the reader's loop, for the bytes [cs] read from index
    [idx] on: each byte, and a [\0] behind it. *)
Fixpoint fill (idx : nat) (cs : list ascii) (mem : list ascii) : list ascii :=
  match cs with
  | [] => mem
  | c :: cs' => fill (S idx) cs' (poke (S idx) NUL (poke idx c mem))
  end.

(** The bytes that reach the receive queue early enough for the loop to
    test its guard once more: those waiting now, and those of the
    milliseconds before the deadline [msLastCmd + TIMEOUT]. *)
Definition visible (w : World) : list ascii :=
  if elapsed w <? TIMEOUT
  then rxq w ++ concat (firstn (Z.to_nat (TIMEOUT - 1 - elapsed w)) (feed w))
  else [].

(** What a reader with [room] free cells takes from a stream: the bytes
    before the first carriage return, as far as there is room; [true] when
    it got to the carriage return. *)
Fixpoint scan (room : nat) (s : list ascii) : bool * list ascii :=
  match room, s with
  | O, _ => (false, [])
  | _, [] => (false, [])
  | S room', c :: s' =>
      if Ascii.eqb c CR then (true, [])
      else let (r, t) := scan room' s' in (r, c :: t)
  end.

(** The number of characters a buffer of [rspLen] cells takes besides the
    terminator: the loop reads while [rspIndex < rspLen - 1]. *)
Definition cap (rspLen : Z) : nat := Z.to_nat (rspLen - 1).

(** The bytes a reader took out of the queue: the stored ones, and the
    carriage return when it got that far. *)
Definition taken_bytes (r : bool) (t : list ascii) : list ascii :=
  t ++ (if r then [CR] else []).

(** A run of the reader's loop from index [idx] in world [w] that stored
    the bytes [t], answered [r] and left the world [w']. *)
Definition reader_post (idx : nat) (w : World) (r : bool) (t : list ascii)
  (w' : World) : Prop :=
  rspStr w' = fill idx t (rspStr w) /\
  pending w = taken_bytes r t ++ pending w' /\
  log w' = log w ++ map ERecv (taken_bytes r t)
                 ++ [EPrint (if r then text (rspStr w') else msg_timed_out)] /\
  baud w' = baud w /\ brk w' = brk w /\
  msLastCmd w' = msLastCmd w /\ sendStr w' = sendStr w /\
  (if r then elapsed w' < TIMEOUT else elapsed w' = Z.max (elapsed w) TIMEOUT).

(** Classes of events. *)
Definition no_speed (e : Event) : Prop :=
  match e with ESpeed _ => False | _ => True end.
Definition no_send (e : Event) : Prop :=
  match e with ESend _ => False | _ => True end.

(** The texts handed to [XBee.Send], in order. *)
Fixpoint sends (l : list Event) : list string :=
  match l with
  | [] => []
  | ESend s :: l' => s :: sends l'
  | _ :: l' => sends l'
  end.

(** The carriage return as [XBee.Send] gets it. *)
Definition CR_text : string := String CR EmptyString.

(** From [w] to [w'] the command [cmd] went out: the text, its echo on
    the console, the carriage return, the new time stamp; then whatever
    the reader did, which sends nothing. *)
Definition dispatched (cmd : string) (w w' : World) : Prop :=
  exists rest,
    log w' = log w ++ ESend cmd :: EPrint cmd :: ESend CR_text
                   :: EStamp (now w) :: rest /\
    sends rest = [].

(** From [w] to [w'] a failure was reported with [message], and nothing
    else was done. *)
Definition reported (message : string) (w w' : World) : Prop :=
  log w' = log w ++ [EPrint message; EDelay 600].

(** From [w] to [w'] the host's baud rate was left alone. *)
Definition calm (w w' : World) : Prop :=
  baud w' = baud w /\ grows no_speed w w'.

(** The command [ATBD <code>] as it is sent. *)
Definition atbd (c : ascii) : string := String.append "ATBD " (String c EmptyString).

(** The rates the [switch] of [DeviceSpeed] has a case for. *)
Definition supported_rates : list Z :=
  [2400; 4800; 9600; 19200; 38400; 57600; 115200; 230400; 460800; 921600].

(** [n] milliseconds in which the modem delivers nothing. *)
Definition quiet (n : Z) : list (list ascii) := repeat [] (Z.to_nat n).

Definition OK_reply : list ascii := chars "OK" ++ [CR].
Definition ERROR_reply : list ascii := chars "ERROR" ++ [CR].

(** A host set to the rate 12345, for which the [switch] has no case, and
    a modem that never answers. *)
Definition w_unsupported : World := boot 12345 [].

(** A modem that answers [ERROR] one millisecond after the break is
    released and one millisecond after each of the four commands: the
    replies are placed where the run of [DeviceSpeed] waits for them. *)
Definition w_error : World :=
  boot 19200
    (quiet 6000 ++ [ERROR_reply] ++ quiet 601 ++ [ERROR_reply]
       ++ quiet 600 ++ [ERROR_reply] ++ quiet 600 ++ [ERROR_reply]
       ++ quiet 600 ++ [ERROR_reply]).

(** A modem that answers [OK] one millisecond after the break is released
    and one millisecond after each of the four commands. *)
Definition w_ok : World :=
  boot 19200
    (quiet 6000 ++ [OK_reply] ++ quiet 1
       ++ [OK_reply; OK_reply; OK_reply; OK_reply]).

(** The value of the local [baudRate] after the [switch]. *)
Definition code_of (speed : Z) : ascii :=
  match baudCode speed with Some c => c | None => "0"%char end.

(** The texts sent before the first console line [message]. *)
Fixpoint sent_before (message : string) (l : list Event) : list string :=
  match l with
  | [] => []
  | EPrint s :: l' => if String.eqb s message then [] else sent_before message l'
  | ESend s :: l' => s :: sent_before message l'
  | _ :: l' => sent_before message l'
  end.

(** The events after the first console line [message]. *)
Fixpoint after_line (message : string) (l : list Event) : list Event :=
  match l with
  | [] => []
  | EPrint s :: l' => if String.eqb s message then l' else after_line message l'
  | _ :: l' => after_line message l'
  end.

(** Thirteen characters and a carriage return arrive in the first
    millisecond: more than the nine [rspStr] has room for. *)
Definition w_long : World := boot 9600 [chars "0123456789ABC" ++ [CR]].

(** Nine characters and a carriage return: ten bytes, the size of
    [rspStr]. *)
Definition w_nine : World := boot 9600 [chars "123456789" ++ [CR]].

(** The modem sends [OK] and never the carriage return. *)
Definition w_ok_unterminated : World := boot 9600 [chars "OK"].

(** The modem answers [OK] and a carriage return in the first
    millisecond. *)
Definition w_ok_once : World := boot 9600 [OK_reply].

(** Twenty seconds after the last exchange, which was answered [OK]. *)
Definition w_idle : World :=
  mkWorld 20000 [] [] 9600 false 0 (repeat NUL 10)
          (chars "OK" ++ repeat NUL 8) [].

(** The world in which [atCommandSend] calls the reader. *)
Definition sent (cmd : list ascii) (w : World) : World :=
  stamp (Send [CR; NUL] (println (text cmd) (Send cmd w))).

(** The last exchange was answered [ERROR]. *)
Definition w_refused : World :=
  mkWorld 100 [] [] 9600 false 0 (repeat NUL 10)
          (chars "ERROR" ++ repeat NUL 5) [].

(** ** Notions used for the further properties *)

(** From [w] to [w'] between [lo] and [hi] milliseconds went by on a clock
    that was within its 32 bits, and still is. *)
Definition lasts (lo hi : Z) (w w' : World) : Prop :=
  0 <= now w < 2 ^ 32 ->
  0 <= now w' < 2 ^ 32 /\
  exists d, lo <= d <= hi /\ now w' = wrap32 (now w + d).

(** Twenty seconds after the last stamp, with a reply waiting unread. *)
Definition w_late : World :=
  mkWorld 20000 [] OK_reply 9600 false 0 (repeat NUL 10)
          (chars "ERROR" ++ repeat NUL 5) [].

(** The states given to the break line, in order. *)
Fixpoint breaks (l : list Event) : list bool :=
  match l with
  | [] => []
  | EBreak b :: l' => b :: breaks l'
  | _ :: l' => breaks l'
  end.

Definition no_break (e : Event) : Prop :=
  match e with EBreak _ => False | _ => True end.

(** From [w] to [w'] the break line was left alone. *)
Definition steady (w w' : World) : Prop :=
  brk w' = brk w /\ grows no_break w w'.

(** ** [setup] and [loop]

    [Serial.begin(115200)] configures the console, which has no state
    here; [while (!Serial)] waits for the console to come up, [usb_wait]
    milliseconds in the runs considered (a run in which it never comes
    up does not get any further). *)
Definition setup (usb_wait : nat) (w : World) : World :=
  let w := ticks usb_wait w in
  let w := Speed_set 19200 w in
  DeviceSpeed w.

Definition loop (w : World) : World := w.

(** From [w] to [w'] at most [n] bytes were taken from the front of the
    incoming stream, and none was dropped: the rest is still to be read,
    in order. *)
Definition reads (n : nat) (w w' : World) : Prop :=
  exists taken, pending w = taken ++ pending w' /\ (length taken <= n)%nat.

(** * Basic facts *)

(** ** The clock *)

Lemma wrap32_small (z : Z) : 0 <= z < 2 ^ 32 -> wrap32 z = z.
Proof. intros H. unfold wrap32. apply Z.mod_small. exact H. Qed.

Lemma wrap32_range (z : Z) : 0 <= wrap32 z < 2 ^ 32.
Proof. unfold wrap32. apply Z.mod_pos_bound. lia. Qed.

Lemma wrap32_add_l (a b : Z) : wrap32 (wrap32 a + b) = wrap32 (a + b).
Proof. unfold wrap32. apply Zplus_mod_idemp_l. Qed.

Lemma elapsed_range (w : World) : 0 <= elapsed w < 2 ^ 32.
Proof. apply wrap32_range. Qed.

Lemma elapsed_tick (w : World) : elapsed (tick w) = wrap32 (elapsed w + 1).
Proof.
  unfold elapsed, Milliseconds, tick; simpl.
  rewrite wrap32_add_l. unfold wrap32.
  rewrite Zminus_mod_idemp_l. f_equal. lia.
Qed.

Lemma elapsed_ticks (n : nat) (w : World) :
  elapsed (ticks n w) = wrap32 (elapsed w + Z.of_nat n).
Proof.
  revert w. induction n as [|n IH]; intros w.
  - simpl. rewrite Z.add_0_r. symmetry. apply wrap32_small, elapsed_range.
  - cbn [ticks]. rewrite IH, elapsed_tick, wrap32_add_l. f_equal. lia.
Qed.

Lemma elapsed_stamp (w : World) : elapsed (stamp w) = 0.
Proof. unfold elapsed, stamp, Milliseconds; simpl. rewrite Z.sub_diag. reflexivity. Qed.

(** ** What a millisecond leaves alone *)

Lemma pending_tick (w : World) : pending (tick w) = pending w.
Proof.
  unfold pending, tick; simpl. destruct (feed w) as [|b f]; simpl.
  - rewrite app_nil_r. reflexivity.
  - rewrite <- app_assoc. reflexivity.
Qed.

Lemma ticks_frame (n : nat) (w : World) :
  baud (ticks n w) = baud w /\ brk (ticks n w) = brk w /\
  msLastCmd (ticks n w) = msLastCmd w /\ sendStr (ticks n w) = sendStr w /\
  rspStr (ticks n w) = rspStr w /\ log (ticks n w) = log w /\
  pending (ticks n w) = pending w.
Proof.
  revert w. induction n as [|n IH]; intros w; cbn [ticks].
  - repeat split.
  - destruct (IH (tick w)) as (H1 & H2 & H3 & H4 & H5 & H6 & H7).
    rewrite H1, H2, H3, H4, H5, H6, H7, pending_tick. repeat split.
Qed.

(** ** Logs that only grow *)

Lemma grows_refl (P : Event -> Prop) (w : World) : grows P w w.
Proof. exists []. split; [now rewrite app_nil_r | constructor]. Qed.

Lemma grows_trans (P : Event -> Prop) (w1 w2 w3 : World) :
  grows P w1 w2 -> grows P w2 w3 -> grows P w1 w3.
Proof.
  intros (l1 & E1 & F1) (l2 & E2 & F2). exists (l1 ++ l2). split.
  - rewrite E2, E1, app_assoc. reflexivity.
  - apply Forall_app. split; assumption.
Qed.

Lemma grows_same_log (P : Event -> Prop) (w w' : World) :
  log w' = log w -> grows P w w'.
Proof. intros E. exists []. split; [now rewrite app_nil_r | constructor]. Qed.

Lemma grows_emit (P : Event -> Prop) (e : Event) (w : World) :
  P e -> grows P w (emit e w).
Proof. intros H. exists [e]. split; [reflexivity | repeat constructor; exact H]. Qed.

Lemma grows_ticks (P : Event -> Prop) (n : nat) (w : World) : grows P w (ticks n w).
Proof. apply grows_same_log. apply ticks_frame. Qed.

Lemma grows_delay (P : Event -> Prop) (ms : Z) (w : World) :
  P (EDelay ms) -> grows P w (delay ms w).
Proof.
  intros H. unfold delay.
  eapply grows_trans; [apply grows_emit, H | apply grows_ticks].
Qed.

(** ** Stores into a [char] array *)

Lemma poke_length (i : nat) (c : ascii) (mem : list ascii) :
  length (poke i c mem) = length mem.
Proof.
  revert i. induction mem as [|x mem IH]; intros [|i]; simpl; try reflexivity.
  now rewrite IH.
Qed.

Lemma poke_nth_same (i : nat) (c : ascii) (mem : list ascii) :
  (i < length mem)%nat -> nth_error (poke i c mem) i = Some c.
Proof.
  revert i. induction mem as [|x mem IH]; intros [|i] H; simpl in *; try lia.
  - reflexivity.
  - apply IH. lia.
Qed.

Lemma firstn_poke_ge (n i : nat) (c : ascii) (mem : list ascii) :
  (n <= i)%nat -> firstn n (poke i c mem) = firstn n mem.
Proof.
  revert n i. induction mem as [|x mem IH]; intros [|n] [|i] H; simpl; try reflexivity; try lia.
  f_equal. apply IH. lia.
Qed.

Lemma firstn_S_poke (i : nat) (c : ascii) (mem : list ascii) :
  (i < length mem)%nat -> firstn (S i) (poke i c mem) = firstn i mem ++ [c].
Proof.
  revert i. induction mem as [|x mem IH]; intros [|i] H; simpl in *; try lia.
  - reflexivity.
  - f_equal. apply IH. lia.
Qed.

Lemma fill_length (idx : nat) (cs mem : list ascii) :
  length (fill idx cs mem) = length mem.
Proof.
  revert idx mem. induction cs as [|c cs IH]; intros idx mem; cbn [fill].
  - reflexivity.
  - rewrite IH, 2!poke_length. reflexivity.
Qed.

Lemma fill_content (cs : list ascii) :
  forall (idx : nat) (mem : list ascii),
    nth_error mem idx = Some NUL ->
    (idx + length cs < length mem)%nat ->
    firstn (idx + length cs) (fill idx cs mem) = firstn idx mem ++ cs /\
    nth_error (fill idx cs mem) (idx + length cs) = Some NUL.
Proof.
  induction cs as [|c cs IH]; intros idx mem Hnul Hlen; cbn [fill length] in *.
  - rewrite Nat.add_0_r, app_nil_r. split; [reflexivity | exact Hnul].
  - replace (idx + S (length cs))%nat with (S idx + length cs)%nat by lia.
    destruct (IH (S idx) (poke (S idx) NUL (poke idx c mem))) as [Hf Hn].
    + apply poke_nth_same. rewrite poke_length. lia.
    + rewrite !poke_length. lia.
    + split; [|exact Hn].
      rewrite Hf, firstn_poke_ge by lia.
      rewrite firstn_S_poke by lia. now rewrite <- app_assoc.
Qed.

Lemma cstr_prefix (pre : list ascii) :
  forall mem : list ascii,
    firstn (length pre) mem = pre ->
    nth_error mem (length pre) = Some NUL ->
    ~ In NUL pre ->
    cstr mem = pre.
Proof.
  induction pre as [|c pre IH]; intros [|x mem] Hf Hn Hin; simpl in *;
    try discriminate.
  - injection Hn as ->. reflexivity.
  - injection Hf as -> Hf.
    destruct (Ascii.eqb_spec c NUL) as [->|_]; [exfalso; auto|].
    f_equal. apply IH; auto.
Qed.

(** ** The reader, seen from the stream *)

Lemma scan_found (pre suf : list ascii) :
  forall room : nat,
    ~ In CR pre -> (length pre < room)%nat ->
    scan room (pre ++ CR :: suf) = (true, pre).
Proof.
  induction pre as [|c pre IH]; intros [|room] Hin Hlen; simpl in *; try lia.
  - reflexivity.
  - destruct (Ascii.eqb_spec c CR) as [->|_]; [exfalso; auto|].
    rewrite IH by (auto; lia). reflexivity.
Qed.

Lemma scan_none (s : list ascii) :
  forall room : nat,
    ~ In CR (firstn room s) -> scan room s = (false, firstn room s).
Proof.
  induction s as [|c s IH]; intros [|room] Hin; simpl in *; try reflexivity.
  destruct (Ascii.eqb_spec c CR) as [->|_]; [exfalso; auto|].
  rewrite IH by auto. reflexivity.
Qed.

(** Reduction of field accesses and list operations only: the constants
    of the sketch stay folded. *)
Ltac fields :=
  cbn [now feed rxq baud brk msLastCmd sendStr rspStr log
       set_now set_feed set_rxq set_baud set_brk set_msLastCmd set_sendStr
       set_rspStr emit println Milliseconds fst snd].
Ltac fields_in H :=
  cbn [now feed rxq baud brk msLastCmd sendStr rspStr log
       set_now set_feed set_rxq set_baud set_brk set_msLastCmd set_sendStr
       set_rspStr emit println Milliseconds fst snd] in H.
Ltac lists := cbn [hd tl app concat firstn map fill].

Lemma elapsed_eq (w w' : World) :
  now w' = now w -> msLastCmd w' = msLastCmd w -> elapsed w' = elapsed w.
Proof. intros H1 H2. unfold elapsed, Milliseconds. now rewrite H1, H2. Qed.

Lemma scan_nil (room : nat) : scan room [] = (false, []).
Proof. destruct room; reflexivity. Qed.

Lemma visible_expired (w : World) : TIMEOUT <= elapsed w -> visible w = [].
Proof.
  intros H. unfold visible. destruct (Z.ltb_spec (elapsed w) TIMEOUT); [lia | reflexivity].
Qed.

Lemma elapsed_tick_before (w : World) :
  elapsed w < TIMEOUT -> elapsed (tick w) = elapsed w + 1.
Proof.
  intros H. rewrite elapsed_tick. apply wrap32_small.
  pose proof (elapsed_range w). unfold TIMEOUT in H. lia.
Qed.

(** Waiting one millisecond on an empty queue shows the loop the same
    bytes. *)
Lemma visible_tick_idle (w : World) :
  elapsed w < TIMEOUT -> rxq w = [] -> visible (tick w) = visible w.
Proof.
  intros He Hq. unfold visible. rewrite (elapsed_tick_before w He).
  destruct (Z.ltb_spec (elapsed w) TIMEOUT) as [_|]; [|lia].
  rewrite Hq. unfold tick; fields. rewrite Hq. lists.
  destruct (Z.ltb_spec (elapsed w + 1) TIMEOUT) as [Hlt|Hge].
  - replace (Z.to_nat (TIMEOUT - 1 - elapsed w))
      with (S (Z.to_nat (TIMEOUT - 1 - (elapsed w + 1)))) by lia.
    destruct (feed w) as [|b f]; lists.
    + now rewrite firstn_nil.
    + reflexivity.
  - replace (Z.to_nat (TIMEOUT - 1 - elapsed w)) with O by lia. reflexivity.
Qed.

Lemma visible_read (c : ascii) (q : list ascii) (w w' : World) :
  elapsed w < TIMEOUT -> rxq w = c :: q ->
  rxq w' = q -> feed w' = feed w -> elapsed w' = elapsed w ->
  visible w = c :: visible w'.
Proof.
  intros He Hq Hq' Hf He'. unfold visible. rewrite He', Hq, Hq', Hf.
  destruct (Z.ltb_spec (elapsed w) TIMEOUT); [reflexivity | lia].
Qed.

Lemma reader_post_tick (idx : nat) (w : World) (r : bool) (t : list ascii) (w' : World) :
  elapsed w < TIMEOUT ->
  reader_post idx (tick w) r t w' -> reader_post idx w r t w'.
Proof.
  intros He (H1 & H2 & H3 & H4 & H5 & H6 & H7 & H8).
  rewrite pending_tick in H2. rewrite (elapsed_tick_before w He) in H8.
  unfold reader_post. repeat split; try assumption.
  destruct r; [assumption | lia].
Qed.

(** The loop takes from the stream what [scan] takes, provided the fuel
    covers the milliseconds left and the free cells. *)
Lemma rsp_loop_scan (rspLen : Z) (fuel : nat) :
  forall (idx : nat) (w : World),
    (Z.to_nat (TIMEOUT - elapsed w) + (cap rspLen - idx) < fuel)%nat ->
    exists w',
      rsp_loop fuel rspLen idx w
      = Some (fst (scan (cap rspLen - idx) (visible w)), w') /\
      reader_post idx w (fst (scan (cap rspLen - idx) (visible w)))
                  (snd (scan (cap rspLen - idx) (visible w))) w'.
Proof.
  induction fuel as [|fuel IH]; intros idx w Hfuel; [lia|].
  cbn [rsp_loop].
  destruct (Z.ltb_spec (elapsed w) TIMEOUT) as [He|He].
  2:{ rewrite (visible_expired w He), scan_nil. fields.
      exists (println msg_timed_out w). split; [reflexivity|].
      unfold reader_post, taken_bytes. fields. lists.
      repeat split.
      rewrite (elapsed_eq w (println msg_timed_out w)) by reflexivity. lia. }
  assert (Hidle : exists w',
             rsp_loop fuel rspLen idx (tick w)
             = Some (fst (scan (cap rspLen - idx) (visible (tick w))), w') /\
             reader_post idx w (fst (scan (cap rspLen - idx) (visible (tick w))))
                         (snd (scan (cap rspLen - idx) (visible (tick w)))) w').
  { destruct (IH idx (tick w)) as (w' & Hrun & Hpost).
    - rewrite (elapsed_tick_before w He). lia.
    - exists w'. split; [exact Hrun|]. apply reader_post_tick; assumption. }
  unfold AvailableForRead.
  destruct (rxq w) as [|c q] eqn:Hq.
  - rewrite <- (visible_tick_idle w He Hq). exact Hidle.
  - destruct (Z.ltb_spec (Z.of_nat idx) (rspLen - 1)) as [Hroom|Hfull].
    2:{ replace (cap rspLen - idx)%nat with O in * by (unfold cap; lia).
        exact Hidle. }
    unfold CharGet. rewrite Hq.
    destruct (cap rspLen - idx)%nat as [|room] eqn:Hcap; [unfold cap in Hcap; lia|].
    destruct (Ascii.eqb_spec c CR) as [->|Hc].
    + rewrite (visible_read CR q w (set_rxq q w) He Hq) by reflexivity.
      cbn [scan Ascii.eqb Bool.eqb CR]. fields.
      eexists. split; [reflexivity|].
      unfold reader_post, taken_bytes, pending. fields. rewrite Hq.
      repeat split.
      * lists. now rewrite <- app_assoc.
      * rewrite (elapsed_eq w) by reflexivity. exact He.
    + set (w3 := set_rspStr _ (set_rspStr _ _)).
      assert (He3 : elapsed w3 = elapsed w) by (apply elapsed_eq; reflexivity).
      destruct (IH (S idx) w3) as (w' & Hrun & Hpost).
      * rewrite He3. lia.
      * replace (cap rspLen - S idx)%nat with room in * by lia.
        rewrite (visible_read c q w w3 He Hq) by (reflexivity || exact He3).
        cbn [scan]. destruct (Ascii.eqb_spec c CR) as [|_]; [contradiction|].
        rewrite Hrun.
        destruct (scan room (visible w3)) as [r t]. fields. fields_in Hpost.
        exists w'. split; [reflexivity|].
        destruct Hpost as (H1 & H2 & H3 & H4 & H5 & H6 & H7 & H8).
        unfold reader_post, taken_bytes, pending in *.
        rewrite Hq. subst w3. fields_in H1. fields_in H2. fields_in H3.
        rewrite He3 in H8.
        repeat split; try assumption.
        -- lists. f_equal. exact H2.
        -- rewrite H3, <- app_assoc. reflexivity.
Qed.

(** ** [atRspReceive] as a whole *)

Lemma rsp_fuel_enough (rspLen : Z) (w : World) :
  (Z.to_nat (TIMEOUT - elapsed w) + (cap rspLen - 0) < rsp_fuel rspLen)%nat.
Proof.
  pose proof (elapsed_range w). unfold rsp_fuel, cap. lia.
Qed.

(** The fuel of [atRspReceive] never runs out: the reader always returns,
    and with what [scan] says. *)
Lemma atRspReceive_scan (rspLen : Z) (w : World) :
  exists w',
    atRspReceive rspLen w = (fst (scan (cap rspLen) (visible w)), w') /\
    reader_post 0 (set_rspStr (poke 0 NUL (rspStr w)) w)
                (fst (scan (cap rspLen) (visible w)))
                (snd (scan (cap rspLen) (visible w))) w'.
Proof.
  unfold atRspReceive.
  set (w0 := set_rspStr (poke 0 NUL (rspStr w)) w).
  destruct (rsp_loop_scan rspLen (rsp_fuel rspLen) 0 w0 (rsp_fuel_enough rspLen w0))
    as (w' & Hrun & Hpost).
  rewrite Nat.sub_0_r in Hrun, Hpost.
  change (visible w0) with (visible w) in Hrun, Hpost.
  exists w'. rewrite Hrun. split; [reflexivity | exact Hpost].
Qed.

Lemma rsp_loop_fuel (rspLen : Z) (w : World) :
  exists r, rsp_loop (rsp_fuel rspLen) rspLen 0 w = Some r.
Proof.
  destruct (rsp_loop_scan rspLen (rsp_fuel rspLen) 0 w (rsp_fuel_enough rspLen w))
    as (w' & Hrun & _).
  eexists. exact Hrun.
Qed.

(** The same, field by field. *)
Lemma atRspReceive_spec (rspLen : Z) (w : World) :
  exists (r : bool) (t : list ascii) (w' : World),
    atRspReceive rspLen w = (r, w') /\
    (r, t) = scan (cap rspLen) (visible w) /\
    rspStr w' = fill 0 t (poke 0 NUL (rspStr w)) /\
    pending w = taken_bytes r t ++ pending w' /\
    log w' = log w ++ map ERecv (taken_bytes r t)
                   ++ [EPrint (if r then text (rspStr w') else msg_timed_out)] /\
    baud w' = baud w /\ brk w' = brk w /\
    msLastCmd w' = msLastCmd w /\ sendStr w' = sendStr w /\
    (if r then elapsed w' < TIMEOUT else elapsed w' = Z.max (elapsed w) TIMEOUT).
Proof.
  destruct (atRspReceive_scan rspLen w) as (w' & Hrun & Hpost).
  exists (fst (scan (cap rspLen) (visible w))),
         (snd (scan (cap rspLen) (visible w))), w'.
  split; [exact Hrun|]. split; [now destruct (scan (cap rspLen) (visible w))|].
  exact Hpost.
Qed.

Lemma atRspReceive_frame (rspLen : Z) (w : World) :
  baud (snd (atRspReceive rspLen w)) = baud w /\
  brk (snd (atRspReceive rspLen w)) = brk w /\
  msLastCmd (snd (atRspReceive rspLen w)) = msLastCmd w /\
  sendStr (snd (atRspReceive rspLen w)) = sendStr w.
Proof.
  destruct (atRspReceive_spec rspLen w)
    as (r & t & w' & -> & _ & _ & _ & _ & H4 & H5 & H6 & H7 & _).
  repeat split; assumption.
Qed.

Lemma Forall_map_ERecv (P : Event -> Prop) (l : list ascii) :
  (forall c, P (ERecv c)) -> Forall P (map ERecv l).
Proof. intros H. induction l; simpl; constructor; auto. Qed.

Lemma atRspReceive_grows (P : Event -> Prop) (rspLen : Z) (w : World) :
  (forall c, P (ERecv c)) -> (forall s, P (EPrint s)) ->
  grows P w (snd (atRspReceive rspLen w)).
Proof.
  intros Hr Hp.
  destruct (atRspReceive_spec rspLen w)
    as (r & t & w' & -> & _ & _ & _ & H3 & _).
  eexists. split; [exact H3|].
  apply Forall_app. split; [apply Forall_map_ERecv, Hr | repeat constructor; apply Hp].
Qed.

(** ** [delay], [exitFail], [check] *)

Lemma now_ticks (n : nat) (w : World) :
  now (ticks (S n) w) = wrap32 (now w + Z.of_nat (S n)).
Proof.
  revert w. induction n as [|n IH]; intros w.
  - reflexivity.
  - change (ticks (S (S n)) w) with (ticks (S n) (tick w)). rewrite IH.
    unfold tick; fields. rewrite wrap32_add_l. f_equal. lia.
Qed.

Lemma delay_frame (ms : Z) (w : World) :
  baud (delay ms w) = baud w /\ brk (delay ms w) = brk w /\
  msLastCmd (delay ms w) = msLastCmd w /\ sendStr (delay ms w) = sendStr w /\
  rspStr (delay ms w) = rspStr w /\ log (delay ms w) = log w ++ [EDelay ms] /\
  pending (delay ms w) = pending w.
Proof.
  unfold delay.
  destruct (ticks_frame (Z.to_nat ms) (emit (EDelay ms) w))
    as (H1 & H2 & H3 & H4 & H5 & H6 & H7).
  rewrite H1, H2, H3, H4, H5, H6, H7. repeat split.
Qed.

Lemma elapsed_delay (ms : Z) (w : World) :
  0 <= ms -> elapsed (delay ms w) = wrap32 (elapsed w + ms).
Proof.
  intros H. unfold delay. rewrite elapsed_ticks.
  rewrite (elapsed_eq w (emit (EDelay ms) w)) by reflexivity.
  f_equal. lia.
Qed.

Lemma now_delay (ms : Z) (w : World) :
  0 < ms -> now (delay ms w) = wrap32 (now w + ms).
Proof.
  intros H. unfold delay.
  destruct (Z.to_nat ms) as [|n] eqn:E; [lia|].
  rewrite now_ticks. fields. f_equal. lia.
Qed.

(** From here on [delay] is used through the three lemmas above only. *)
#[global] Opaque ticks delay.

Lemma exitFail_frame (message : string) (w : World) :
  baud (exitFail message w) = baud w /\ brk (exitFail message w) = brk w /\
  msLastCmd (exitFail message w) = msLastCmd w /\
  sendStr (exitFail message w) = sendStr w /\
  rspStr (exitFail message w) = rspStr w /\
  reported message w (exitFail message w) /\
  elapsed (exitFail message w) = wrap32 (elapsed w + 600).
Proof.
  unfold exitFail, reported.
  destruct (delay_frame 600 (println message w)) as (H1 & H2 & H3 & H4 & H5 & H6 & _).
  rewrite H1, H2, H3, H4, H5, H6, elapsed_delay by lia. fields.
  rewrite <- app_assoc. repeat split.
Qed.

Lemma exitFail_grows (P : Event -> Prop) (message : string) (w : World) :
  P (EPrint message) -> P (EDelay 600) -> grows P w (exitFail message w).
Proof.
  intros Hp Hd. destruct (exitFail_frame message w) as (_ & _ & _ & _ & _ & H & _).
  exists [EPrint message; EDelay 600]. split; [exact H | repeat constructor; assumption].
Qed.

Lemma check_affirmative (message : string) (w : World) :
  affirmative w = true -> check message w = w.
Proof. intros H. unfold check. now rewrite H. Qed.

Lemma check_negative (message : string) (w : World) :
  affirmative w = false -> check message w = exitFail message w.
Proof. intros H. unfold check. now rewrite H. Qed.

Lemma check_frame (message : string) (w : World) :
  baud (check message w) = baud w /\ msLastCmd (check message w) = msLastCmd w /\
  sendStr (check message w) = sendStr w /\ rspStr (check message w) = rspStr w.
Proof.
  unfold check. destruct (affirmative w); [repeat split|].
  destruct (exitFail_frame message w) as (H1 & _ & H3 & H4 & H5 & _).
  repeat split; assumption.
Qed.

Lemma check_grows (P : Event -> Prop) (message : string) (w : World) :
  P (EPrint message) -> P (EDelay 600) -> grows P w (check message w).
Proof.
  intros Hp Hd. unfold check. destruct (affirmative w).
  - apply grows_refl.
  - apply exitFail_grows; assumption.
Qed.

Lemma check_elapsed (message : string) (w : World) :
  elapsed (check message w) = elapsed w \/
  elapsed (check message w) = wrap32 (elapsed w + 600).
Proof.
  unfold check. destruct (affirmative w); [left; reflexivity|].
  right. apply exitFail_frame.
Qed.

(** ** [atCommandSend] *)

Lemma sends_app (l1 l2 : list Event) : sends (l1 ++ l2) = sends l1 ++ sends l2.
Proof.
  induction l1 as [|e l1 IH]; [reflexivity|].
  destruct e; cbn [sends app]; rewrite IH; reflexivity.
Qed.

Lemma sends_quiet (l : list Event) : Forall no_send l -> sends l = [].
Proof.
  induction 1 as [|e l He _ IH]; [reflexivity|].
  destruct e; cbn [sends]; try exact IH. destruct He.
Qed.

Lemma atCommandSend_stale (cmd : list ascii) (rspLen : Z) (w : World) :
  stale w = true -> atCommandSend cmd rspLen w = w.
Proof. intros H. unfold atCommandSend. now rewrite H. Qed.

Lemma atCommandSend_fresh (cmd : list ascii) (rspLen : Z) (w : World) :
  stale w = false ->
  atCommandSend cmd rspLen w
  = snd (atRspReceive rspLen
           (stamp (Send [CR; NUL] (println (text cmd) (Send cmd w))))).
Proof. intros H. unfold atCommandSend. now rewrite H. Qed.

Lemma atCommandSend_frame (cmd : list ascii) (rspLen : Z) (w : World) :
  baud (atCommandSend cmd rspLen w) = baud w /\
  sendStr (atCommandSend cmd rspLen w) = sendStr w.
Proof.
  destruct (stale w) eqn:Hs.
  - rewrite atCommandSend_stale by exact Hs. split; reflexivity.
  - rewrite atCommandSend_fresh by exact Hs.
    match goal with |- context [atRspReceive rspLen ?x] =>
      destruct (atRspReceive_frame rspLen x) as (H1 & _ & _ & H4) end.
    rewrite H1, H4. split; reflexivity.
Qed.

Lemma atCommandSend_dispatched (cmd : list ascii) (rspLen : Z) (w : World) :
  stale w = false -> dispatched (text cmd) w (atCommandSend cmd rspLen w).
Proof.
  intros Hs. rewrite atCommandSend_fresh by exact Hs.
  match goal with |- context [atRspReceive rspLen ?x] =>
    destruct (atRspReceive_grows no_send rspLen x) as (l & E & F) end;
    try (intros; exact I).
  exists l. rewrite E. unfold stamp, Send; fields.
  rewrite <- !app_assoc. split; [reflexivity | apply sends_quiet, F].
Qed.

Lemma atCommandSend_grows (P : Event -> Prop) (cmd : list ascii) (rspLen : Z) (w : World) :
  (forall s, P (ESend s)) -> (forall s, P (EPrint s)) ->
  (forall t, P (EStamp t)) -> (forall c, P (ERecv c)) ->
  grows P w (atCommandSend cmd rspLen w).
Proof.
  intros Hs Hp Ht Hr. destruct (stale w) eqn:Hst.
  - rewrite atCommandSend_stale by exact Hst. apply grows_refl.
  - rewrite atCommandSend_fresh by exact Hst.
    eapply grows_trans; [|apply atRspReceive_grows; assumption].
    unfold stamp, Send, println.
    repeat (eapply grows_trans; [|apply grows_emit; auto]). apply grows_refl.
Qed.

(** ** [AtModeDefault] *)

Lemma AtModeDefault_unfold (w : World) :
  AtModeDefault w
  = stamp (delay 1 (snd (atRspReceive rspStrSize
      (stamp (SerialBreak false (delay 6000 (SerialBreak true (println msg_forcing w)))))))).
Proof. reflexivity. Qed.

Lemma stamp_frame (w : World) :
  baud (stamp w) = baud w /\ sendStr (stamp w) = sendStr w /\
  rspStr (stamp w) = rspStr w /\ brk (stamp w) = brk w /\
  log (stamp w) = log w ++ [EStamp (now w)] /\ msLastCmd (stamp w) = now w /\
  now (stamp w) = now w.
Proof. repeat split. Qed.

Lemma SerialBreak_frame (b : bool) (w : World) :
  baud (SerialBreak b w) = baud w /\ sendStr (SerialBreak b w) = sendStr w /\
  log (SerialBreak b w) = log w ++ [EBreak b] /\ brk (SerialBreak b w) = b /\
  now (SerialBreak b w) = now w.
Proof. repeat split. Qed.

Lemma AtModeDefault_frame (w : World) :
  baud (AtModeDefault w) = baud w /\ sendStr (AtModeDefault w) = sendStr w /\
  elapsed (AtModeDefault w) = 0.
Proof.
  rewrite AtModeDefault_unfold. rewrite elapsed_stamp.
  set (w0 := SerialBreak true (println msg_forcing w)).
  set (wa := stamp (SerialBreak false (delay 6000 w0))).
  set (wb := snd (atRspReceive rspStrSize wa)).
  destruct (stamp_frame (delay 1 wb)) as (S1 & S2 & _).
  destruct (delay_frame 1 wb) as (D1 & _ & _ & D4 & _).
  destruct (atRspReceive_frame rspStrSize wa) as (H1 & _ & _ & H4).
  fold wb in H1, H4.
  destruct (stamp_frame (SerialBreak false (delay 6000 w0))) as (T1 & T2 & _).
  fold wa in T1, T2.
  destruct (SerialBreak_frame false (delay 6000 w0)) as (B1 & B2 & _).
  destruct (delay_frame 6000 w0) as (E1 & _ & _ & E4 & _).
  rewrite S1, S2, D1, D4, H1, H4, T1, T2, B1, B2, E1, E4. repeat split.
Qed.

Lemma AtModeDefault_grows (P : Event -> Prop) (w : World) :
  (forall s, P (EPrint s)) -> (forall b, P (EBreak b)) -> (forall ms, P (EDelay ms)) ->
  (forall t, P (EStamp t)) -> (forall c, P (ERecv c)) ->
  grows P w (AtModeDefault w).
Proof.
  intros Hp Hb Hd Ht Hr. rewrite AtModeDefault_unfold.
  assert (Hstamp : forall x, grows P x (stamp x)).
  { intros x. unfold stamp. exists [EStamp (Milliseconds x)].
    split; [reflexivity | repeat constructor; apply Ht]. }
  assert (Hbrk : forall b x, grows P x (SerialBreak b x)).
  { intros b x. exists [EBreak b]. split; [reflexivity | repeat constructor; apply Hb]. }
  eapply grows_trans; [|apply Hstamp].
  eapply grows_trans; [|apply grows_delay, Hd].
  eapply grows_trans; [|apply atRspReceive_grows; assumption].
  eapply grows_trans; [|apply Hstamp].
  eapply grows_trans; [|apply Hbrk].
  eapply grows_trans; [|apply grows_delay, Hd].
  eapply grows_trans; [|apply Hbrk].
  apply grows_emit, Hp.
Qed.

(** * The mode-entry sequencer *)

(** C9.  Every run of [AtModeDefault] (after its console line) asserts the
    break, holds it for 6000 ms, releases it, stamps [msLastCmd] with the
    time then reached, runs [atRspReceive] once, of which only the world
    is kept: the status [r] and the content are not looked at, waits 1 ms
    and stamps [msLastCmd] a second time.  It does so in every world and
    for both statuses: there is no outcome in which it stops early or
    reports a failure. *)
Theorem AtModeDefault_sequence (w : World) :
  exists (r : bool) (w1 : World) (taken : list ascii),
    atRspReceive rspStrSize
      (stamp (SerialBreak false (delay 6000
         (SerialBreak true (println msg_forcing w))))) = (r, w1) /\
    AtModeDefault w = stamp (delay 1 w1) /\
    log (AtModeDefault w)
    = log w
      ++ [EPrint msg_forcing; EBreak true; EDelay 6000; EBreak false;
          EStamp (wrap32 (now w + 6000))]
      ++ map ERecv taken
      ++ [EPrint (if r then text (rspStr w1) else msg_timed_out)]
      ++ [EDelay 1; EStamp (wrap32 (now w1 + 1))] /\
    msLastCmd (AtModeDefault w) = wrap32 (now w1 + 1) /\
    now (AtModeDefault w) = wrap32 (now w1 + 1) /\
    brk (AtModeDefault w) = false.
Proof.
  remember (stamp (SerialBreak false (delay 6000
              (SerialBreak true (println msg_forcing w))))) as wa eqn:Ewa.
  destruct (atRspReceive_spec rspStrSize wa)
    as (r & t & w1 & Hrun & _ & _ & _ & H3 & _ & H5 & _).
  exists r, w1, (taken_bytes r t).
  assert (Hdef : AtModeDefault w = stamp (delay 1 w1)).
  { rewrite AtModeDefault_unfold, <- Ewa, Hrun. reflexivity. }
  split; [exact Hrun|]. split; [exact Hdef|].
  destruct (stamp_frame (delay 1 w1)) as (_ & _ & _ & S4 & S5 & S6 & S7).
  destruct (delay_frame 1 w1) as (_ & D2 & _ & _ & _ & D6 & _).
  rewrite Hdef, S4, S5, S6, S7, D2, D6, H5, H3, (now_delay 1 w1) by lia.
  assert (L0 : log (SerialBreak true (println msg_forcing w))
               = log w ++ [EPrint msg_forcing; EBreak true])
    by (unfold SerialBreak; fields; now rewrite <- app_assoc).
  assert (N0 : now (SerialBreak true (println msg_forcing w)) = now w)
    by reflexivity.
  remember (SerialBreak true (println msg_forcing w)) as w0 eqn:Ew0.
  destruct (stamp_frame (SerialBreak false (delay 6000 w0))) as (_ & _ & _ & T4 & T5 & _).
  destruct (SerialBreak_frame false (delay 6000 w0)) as (_ & _ & B3 & B4 & B5).
  destruct (delay_frame 6000 w0) as (_ & _ & _ & _ & _ & E6 & _).
  rewrite Ewa, T4, T5, B3, B4, B5, E6, (now_delay 6000 w0), L0, N0 by lia.
  split; [|split; [reflexivity|split; reflexivity]].
  rewrite <- !app_assoc. reflexivity.
Qed.

(** * The baud reconfiguration *)

(** The functions below are used through their lemmas. *)
#[global] Opaque atRspReceive atCommandSend AtModeDefault exitFail.

(** ** Nothing between the two calls of [Speed] touches the rate *)

Lemma calm_refl (w : World) : calm w w.
Proof. split; [reflexivity | apply grows_refl]. Qed.

Lemma calm_trans (w1 w2 w3 : World) : calm w1 w2 -> calm w2 w3 -> calm w1 w3.
Proof.
  intros [B1 G1] [B2 G2]. split; [congruence | eapply grows_trans; eassumption].
Qed.

Lemma calm_exitFail (message : string) (w : World) : calm w (exitFail message w).
Proof.
  destruct (exitFail_frame message w) as (H & _).
  split; [exact H | apply exitFail_grows; exact I].
Qed.

Lemma calm_check (message : string) (w : World) : calm w (check message w).
Proof.
  destruct (check_frame message w) as (H & _).
  split; [exact H | apply check_grows; exact I].
Qed.

Lemma calm_atCommandSend (cmd : list ascii) (rspLen : Z) (w : World) :
  calm w (atCommandSend cmd rspLen w).
Proof.
  destruct (atCommandSend_frame cmd rspLen w) as (H & _).
  split; [exact H | apply atCommandSend_grows; intros; exact I].
Qed.

Lemma calm_AtModeDefault (w : World) : calm w (AtModeDefault w).
Proof.
  destruct (AtModeDefault_frame w) as (H & _).
  split; [exact H | apply AtModeDefault_grows; intros; exact I].
Qed.

Lemma fill_sendStr_frame (c : ascii) (w : World) :
  baud (fill_sendStr c w) = baud w /\ log (fill_sendStr c w) = log w /\
  rspStr (fill_sendStr c w) = rspStr w /\ elapsed (fill_sendStr c w) = elapsed w /\
  now (fill_sendStr c w) = now w.
Proof. repeat split. Qed.

Lemma prep_ApplyBaud_unfold (speed : Z) (w : World) :
  prep_ApplyBaud speed w
  = fill_sendStr (fst (pick_code speed (after_VerifyMode w)))
                 (snd (pick_code speed (after_VerifyMode w))).
Proof.
  unfold prep_ApplyBaud. now destruct (pick_code speed (after_VerifyMode w)).
Qed.

Lemma pick_code_supported (speed : Z) (c : ascii) (w : World) :
  baudCode speed = Some c -> pick_code speed w = (c, w).
Proof. intros H. unfold pick_code. now rewrite H. Qed.

Lemma pick_code_unsupported (speed : Z) (w : World) :
  baudCode speed = None -> pick_code speed w = ("0"%char, exitFail msg_invalid w).
Proof. intros H. unfold pick_code. now rewrite H. Qed.

Lemma calm_pick_code (speed : Z) (w : World) : calm w (snd (pick_code speed w)).
Proof.
  destruct (baudCode speed) as [c|] eqn:E.
  - rewrite (pick_code_supported speed c w E). apply calm_refl.
  - rewrite (pick_code_unsupported speed w E). apply calm_exitFail.
Qed.

Lemma calm_fill_sendStr (c : ascii) (w : World) : calm w (fill_sendStr c w).
Proof.
  destruct (fill_sendStr_frame c w) as (H1 & H2 & _).
  split; [exact H1 | apply grows_same_log; exact H2].
Qed.

Lemma calm_prep_ApplyBaud (speed : Z) (w : World) :
  calm (after_VerifyMode w) (prep_ApplyBaud speed w).
Proof.
  rewrite prep_ApplyBaud_unfold.
  eapply calm_trans; [apply calm_pick_code | apply calm_fill_sendStr].
Qed.

Lemma calm_ForceMode (w : World) : calm (Speed_set 9600 w) (after_ForceMode w).
Proof.
  unfold after_ForceMode, exch_ForceMode.
  eapply calm_trans; [apply calm_AtModeDefault | apply calm_check].
Qed.

Lemma calm_VerifyMode (w : World) : calm (after_ForceMode w) (after_VerifyMode w).
Proof.
  unfold after_VerifyMode, exch_VerifyMode.
  eapply calm_trans; [apply calm_atCommandSend | apply calm_check].
Qed.

Lemma calm_ApplyBaud (speed : Z) (w : World) :
  calm (after_VerifyMode w) (after_ApplyBaud speed w).
Proof.
  unfold after_ApplyBaud, exch_ApplyBaud.
  eapply calm_trans; [apply calm_prep_ApplyBaud|].
  eapply calm_trans; [apply calm_atCommandSend | apply calm_check].
Qed.

Lemma calm_Persist (speed : Z) (w : World) :
  calm (after_ApplyBaud speed w) (after_Persist speed w).
Proof.
  unfold after_Persist, exch_Persist.
  eapply calm_trans; [apply calm_atCommandSend | apply calm_check].
Qed.

Lemma calm_ExitMode (speed : Z) (w : World) :
  calm (after_Persist speed w) (after_ExitMode speed w).
Proof.
  unfold after_ExitMode, exch_ExitMode.
  eapply calm_trans; [apply calm_atCommandSend | apply calm_check].
Qed.

Lemma calm_steps (speed : Z) (w : World) :
  calm (Speed_set 9600 w) (after_ExitMode speed w).
Proof.
  eapply calm_trans; [apply calm_ForceMode|].
  eapply calm_trans; [apply calm_VerifyMode|].
  eapply calm_trans; [apply calm_ApplyBaud|].
  eapply calm_trans; [apply calm_Persist | apply calm_ExitMode].
Qed.

Lemma Speed_set_frame (rate : Z) (w : World) :
  baud (Speed_set rate w) = rate /\ log (Speed_set rate w) = log w ++ [ESpeed rate].
Proof. split; reflexivity. Qed.

Lemma DeviceSpeed_unfold (w : World) :
  DeviceSpeed w = Speed_set (baud w) (after_ExitMode (baud w) w).
Proof. reflexivity. Qed.

(** C1, as the sketch has it.  [DeviceSpeed] sets the host's rate to 9600
    first and sets it back to the rate found at entry, which is the target
    of the reconfiguration, as its last action.  Nothing in between calls
    [Speed], and the last call is not guarded by any classification: it
    comes in every run, so after every run, failed or not, the host's rate
    is the rate before the attempt. *)
Theorem DeviceSpeed_rate (w : World) :
  baud (after_ExitMode (baud w) w) = 9600 /\
  DeviceSpeed w = Speed_set (baud w) (after_ExitMode (baud w) w) /\
  baud (DeviceSpeed w) = baud w /\
  exists mid,
    log (DeviceSpeed w) = log w ++ ESpeed 9600 :: mid ++ [ESpeed (baud w)] /\
    Forall no_speed mid.
Proof.
  destruct (calm_steps (baud w) w) as [Hb (mid & Hl & Hm)].
  destruct (Speed_set_frame 9600 w) as (B0 & L0).
  rewrite B0 in Hb. rewrite L0 in Hl.
  split; [exact Hb|]. split; [apply DeviceSpeed_unfold|].
  rewrite DeviceSpeed_unfold.
  destruct (Speed_set_frame (baud w) (after_ExitMode (baud w) w)) as (B1 & L1).
  split; [exact B1|].
  exists mid. split; [|exact Hm].
  rewrite L1, Hl, <- !app_assoc. reflexivity.
Qed.

(** ** The table of device codes *)

Lemma baudCode_supported (rate : Z) :
  In rate supported_rates -> exists c, baudCode rate = Some c.
Proof.
  unfold supported_rates. cbn [In].
  intros [<-|[<-|[<-|[<-|[<-|[<-|[<-|[<-|[<-|[<-|[]]]]]]]]]]];
    eexists; reflexivity.
Qed.

Lemma baudCode_unsupported (rate : Z) :
  ~ In rate supported_rates -> baudCode rate = None.
Proof.
  unfold supported_rates, baudCode. cbn [In]. intros H.
  repeat match goal with
         | |- context [rate =? ?k] => destruct (Z.eqb_spec rate k) as [->|_]
         end; try reflexivity; exfalso; apply H; tauto.
Qed.

Lemma pick_code_not_NUL (speed : Z) (w : World) :
  Ascii.eqb (fst (pick_code speed w)) NUL = false.
Proof.
  unfold pick_code, baudCode.
  repeat match goal with
         | |- context [speed =? ?k] => destruct (speed =? k)
         end; reflexivity.
Qed.

(** ** The log of [DeviceSpeed], step by step *)

Lemma silent_ForceMode (w : World) : grows no_send w (after_ForceMode w).
Proof.
  unfold after_ForceMode, exch_ForceMode.
  eapply grows_trans; [|apply check_grows; exact I].
  eapply grows_trans; [|apply AtModeDefault_grows; intros; exact I].
  destruct (Speed_set_frame 9600 w) as (_ & L).
  exists [ESpeed 9600]. split; [exact L | repeat constructor].
Qed.

(** [VerifyMode] always finds the session fresh: [AtModeDefault] has just
    stamped [msLastCmd], and a failure report adds 600 ms. *)
Lemma fresh_VerifyMode (w : World) : stale (after_ForceMode w) = false.
Proof.
  unfold after_ForceMode, exch_ForceMode, stale.
  destruct (AtModeDefault_frame (Speed_set 9600 w)) as (_ & _ & He).
  destruct (check_elapsed msg_establish (AtModeDefault (Speed_set 9600 w))) as [E|E];
    rewrite E, He; reflexivity.
Qed.

Lemma dispatched_VerifyMode (w : World) :
  dispatched "AT" (after_ForceMode w) (exch_VerifyMode w).
Proof.
  unfold exch_VerifyMode.
  apply (atCommandSend_dispatched (lit "AT") rspStrSize (after_ForceMode w)).
  apply fresh_VerifyMode.
Qed.

(** Up to the end of [VerifyMode] the bytes sent are those of [AT] and its
    carriage return. *)
Lemma sent_until_VerifyMode (w : World) :
  exists pre, log (after_VerifyMode w) = log w ++ pre /\ sends pre = ["AT"%string; CR_text].
Proof.
  destruct (silent_ForceMode w) as (l1 & E1 & F1).
  destruct (dispatched_VerifyMode w) as (rest & E2 & S2).
  assert (G3 : grows no_send (exch_VerifyMode w) (after_VerifyMode w))
    by (unfold after_VerifyMode; apply check_grows; exact I).
  destruct G3 as (l3 & E3 & F3).
  eexists. split.
  - rewrite E3, E2, E1, <- !app_assoc. reflexivity.
  - rewrite !sends_app. cbn [sends]. rewrite S2, (sends_quiet l1 F1), (sends_quiet l3 F3).
    reflexivity.
Qed.

Lemma calm_from_prep (speed : Z) (w : World) :
  calm (prep_ApplyBaud speed w) (after_ExitMode speed w).
Proof.
  eapply calm_trans; [|apply calm_ExitMode].
  eapply calm_trans; [|apply calm_Persist].
  unfold after_ApplyBaud, exch_ApplyBaud.
  eapply calm_trans; [apply calm_atCommandSend | apply calm_check].
Qed.

(** C2, as the sketch has it.  Every rate the [switch] has a case for has
    a device code, one character.  For a host rate outside that set
    [DeviceSpeed] reports [msg_invalid], but not before anything is sent:
    the [switch] comes after [ForceMode] and [VerifyMode], and what has
    been sent by then is the command [AT] and its carriage return, and no
    [ATBD] command.  (What the sketch does after the report is left
    open here.) *)
Theorem unsupported_rate_reported_after_AT (rate : Z) (w : World) :
  (In rate supported_rates -> exists c : ascii, baudCode rate = Some c) /\
  (~ In (baud w) supported_rates ->
   exists pre post,
     log (DeviceSpeed w) = log w ++ pre ++ EPrint msg_invalid :: post /\
     sends pre = ["AT"%string; CR_text]).
Proof.
  split; [apply baudCode_supported|].
  intros Hout. apply baudCode_unsupported in Hout.
  destruct (sent_until_VerifyMode w) as (pre & Epre & Spre).
  destruct (calm_from_prep (baud w) w) as (_ & rest & Erest & _).
  rewrite prep_ApplyBaud_unfold, (pick_code_unsupported _ _ Hout) in Erest.
  cbn [fst snd] in Erest.
  destruct (fill_sendStr_frame "0" (exitFail msg_invalid (after_VerifyMode w)))
    as (_ & L & _).
  destruct (exitFail_frame msg_invalid (after_VerifyMode w))
    as (_ & _ & _ & _ & _ & R & _).
  unfold reported in R. rewrite L, R, Epre in Erest.
  exists pre, (EDelay 600 :: rest ++ [ESpeed (baud w)]).
  split; [|exact Spre].
  rewrite DeviceSpeed_unfold.
  destruct (Speed_set_frame (baud w) (after_ExitMode (baud w) w)) as (_ & L1).
  rewrite L1, Erest, <- !app_assoc. reflexivity.
Qed.

(** ** Reports and dispatches *)

Lemma reported_negative (message : string) (w : World) :
  affirmative w = false -> reported message w (check message w).
Proof.
  intros H. rewrite (check_negative message w H).
  destruct (exitFail_frame message w) as (_ & _ & _ & _ & _ & R & _). exact R.
Qed.

Lemma fst_pick_code (speed : Z) (w : World) : fst (pick_code speed w) = code_of speed.
Proof. unfold pick_code, code_of. now destruct (baudCode speed). Qed.

Lemma sendStr_after_VerifyMode (w : World) : sendStr (after_VerifyMode w) = sendStr w.
Proof.
  unfold after_VerifyMode, exch_VerifyMode, after_ForceMode, exch_ForceMode.
  repeat match goal with
         | |- context [check ?m ?x] =>
             destruct (check_frame m x) as (_ & _ & -> & _)
         | |- context [atCommandSend ?c ?n ?x] =>
             destruct (atCommandSend_frame c n x) as (_ & ->)
         | |- context [AtModeDefault ?x] =>
             destruct (AtModeDefault_frame x) as (_ & -> & _)
         end.
  reflexivity.
Qed.

Lemma sendStr_pick_code (speed : Z) (w : World) :
  sendStr (snd (pick_code speed w)) = sendStr w.
Proof.
  unfold pick_code. destruct (baudCode speed); [reflexivity|].
  destruct (exitFail_frame msg_invalid w) as (_ & _ & _ & H & _). exact H.
Qed.

Lemma text_fill_sendStr (c : ascii) (w : World) :
  length (sendStr w) = 10%nat -> Ascii.eqb c NUL = false ->
  text (sendStr (fill_sendStr c w)) = atbd c.
Proof.
  intros Hlen Hc. unfold fill_sendStr. fields.
  destruct (sendStr w) as [|a0 [|a1 [|a2 [|a3 [|a4 [|a5 [|a6 l]]]]]]];
    try discriminate Hlen.
  unfold text. cbn [poke cstr]. rewrite Hc. reflexivity.
Qed.

Lemma dispatched_ApplyBaud (speed : Z) (w : World) :
  length (sendStr w) = 10%nat ->
  stale (prep_ApplyBaud speed w) = false ->
  dispatched (atbd (code_of speed)) (prep_ApplyBaud speed w) (exch_ApplyBaud speed w).
Proof.
  intros Hlen Hs. unfold exch_ApplyBaud.
  pose proof (atCommandSend_dispatched (sendStr (prep_ApplyBaud speed w)) rspStrSize
                (prep_ApplyBaud speed w) Hs) as D.
  assert (T : text (sendStr (prep_ApplyBaud speed w)) = atbd (code_of speed)).
  { rewrite prep_ApplyBaud_unfold, text_fill_sendStr.
    - now rewrite fst_pick_code.
    - now rewrite sendStr_pick_code, sendStr_after_VerifyMode.
    - apply pick_code_not_NUL. }
  rewrite T in D. exact D.
Qed.

(** C3, as the sketch has it.  A negative classification does not end
    [DeviceSpeed].  The step that is classified negative reports its own
    message and pauses 600 ms ([reported]), and the next step is run all
    the same: after [ForceMode] the command [AT] always goes out, and each
    later command goes out whenever [atCommandSend] does not find the
    session stale; after [ExitMode] the host's rate is set. *)
Theorem negative_step_reported_next_step_run (w : World) :
  length (sendStr w) = 10%nat ->
  (affirmative (exch_ForceMode w) = false ->
   reported msg_establish (exch_ForceMode w) (after_ForceMode w) /\
   dispatched "AT" (after_ForceMode w) (exch_VerifyMode w)) /\
  (affirmative (exch_VerifyMode w) = false ->
   reported msg_verify (exch_VerifyMode w) (after_VerifyMode w) /\
   (stale (prep_ApplyBaud (baud w) w) = false ->
    dispatched (atbd (code_of (baud w)))
               (prep_ApplyBaud (baud w) w) (exch_ApplyBaud (baud w) w))) /\
  (affirmative (exch_ApplyBaud (baud w) w) = false ->
   reported msg_set (exch_ApplyBaud (baud w) w) (after_ApplyBaud (baud w) w) /\
   (stale (after_ApplyBaud (baud w) w) = false ->
    dispatched "ATWR" (after_ApplyBaud (baud w) w) (exch_Persist (baud w) w))) /\
  (affirmative (exch_Persist (baud w) w) = false ->
   reported msg_write (exch_Persist (baud w) w) (after_Persist (baud w) w) /\
   (stale (after_Persist (baud w) w) = false ->
    dispatched "ATCN" (after_Persist (baud w) w) (exch_ExitMode (baud w) w))) /\
  (affirmative (exch_ExitMode (baud w) w) = false ->
   reported msg_exit (exch_ExitMode (baud w) w) (after_ExitMode (baud w) w) /\
   log (DeviceSpeed w) = log (after_ExitMode (baud w) w) ++ [ESpeed (baud w)]).
Proof.
  intros Hlen.
  split; [|split; [|split; [|split]]]; intros Hneg;
    (split; [apply reported_negative; exact Hneg|]).
  - apply dispatched_VerifyMode.
  - intros Hs. apply dispatched_ApplyBaud; assumption.
  - intros Hs. unfold exch_Persist.
    apply (atCommandSend_dispatched (lit "ATWR") rspStrSize _ Hs).
  - intros Hs. unfold exch_ExitMode.
    apply (atCommandSend_dispatched (lit "ATCN") rspStrSize _ Hs).
  - rewrite DeviceSpeed_unfold.
    destruct (Speed_set_frame (baud w) (after_ExitMode (baud w) w)) as (_ & L).
    exact L.
Qed.

(** ** Runs of [DeviceSpeed] *)

(** A modem that never answers (scenario C of the specification). *)
Example run_silent :
  log (DeviceSpeed w_silent)
  = [ESpeed 9600; EPrint msg_forcing; EBreak true; EDelay 6000; EBreak false;
     EStamp 6000; EPrint msg_timed_out; EDelay 1; EStamp 16001;
     EPrint msg_establish; EDelay 600;
     ESend "AT"; EPrint "AT"; ESend CR_text; EStamp 16601; EPrint msg_timed_out;
     EPrint msg_verify; EDelay 600;
     EPrint msg_set; EDelay 600;
     EPrint msg_write; EDelay 600;
     EPrint msg_exit; EDelay 600;
     ESpeed 19200].
Proof. vm_compute. reflexivity. Qed.

(** A modem that answers [OK] every time (scenario A). *)
Example run_ok :
  log (DeviceSpeed w_ok)
  = [ESpeed 9600; EPrint msg_forcing; EBreak true; EDelay 6000; EBreak false;
     EStamp 6000; ERecv "O"; ERecv "K"; ERecv CR; EPrint "OK"; EDelay 1; EStamp 6002;
     ESend "AT"; EPrint "AT"; ESend CR_text; EStamp 6002;
     ERecv "O"; ERecv "K"; ERecv CR; EPrint "OK";
     ESend "ATBD 4"; EPrint "ATBD 4"; ESend CR_text; EStamp 6003;
     ERecv "O"; ERecv "K"; ERecv CR; EPrint "OK";
     ESend "ATWR"; EPrint "ATWR"; ESend CR_text; EStamp 6004;
     ERecv "O"; ERecv "K"; ERecv CR; EPrint "OK";
     ESend "ATCN"; EPrint "ATCN"; ESend CR_text; EStamp 6005;
     ERecv "O"; ERecv "K"; ERecv CR; EPrint "OK";
     ESpeed 19200]
  /\ baud (DeviceSpeed w_ok) = 19200.
Proof. vm_compute. split; reflexivity. Qed.

(** A modem that answers [ERROR] every time. *)
Example run_error :
  log (DeviceSpeed w_error)
  = [ESpeed 9600; EPrint msg_forcing; EBreak true; EDelay 6000; EBreak false;
     EStamp 6000] ++ map ERecv ERROR_reply ++ [EPrint "ERROR"; EDelay 1; EStamp 6002;
     EPrint msg_establish; EDelay 600;
     ESend "AT"; EPrint "AT"; ESend CR_text; EStamp 6602]
     ++ map ERecv ERROR_reply ++ [EPrint "ERROR"; EPrint msg_verify; EDelay 600;
     ESend "ATBD 4"; EPrint "ATBD 4"; ESend CR_text; EStamp 7203]
     ++ map ERecv ERROR_reply ++ [EPrint "ERROR"; EPrint msg_set; EDelay 600;
     ESend "ATWR"; EPrint "ATWR"; ESend CR_text; EStamp 7804]
     ++ map ERecv ERROR_reply ++ [EPrint "ERROR"; EPrint msg_write; EDelay 600;
     ESend "ATCN"; EPrint "ATCN"; ESend CR_text; EStamp 8405]
     ++ map ERecv ERROR_reply ++ [EPrint "ERROR"; EPrint msg_exit; EDelay 600;
     ESpeed 19200].
Proof. vm_compute. reflexivity. Qed.

(** C1, counterexample.  With a modem that never answers, [ExitMode] is
    classified negative (and reported as such), the host is at 9600 at
    that point, and [DeviceSpeed] still changes the host's rate to the
    target, 19200. *)
Lemma rate_set_after_negative_ExitMode :
  affirmative (exch_ExitMode 19200 w_silent) = false /\
  after_line msg_exit (log (DeviceSpeed w_silent)) = [EDelay 600; ESpeed 19200] /\
  baud (after_ExitMode 19200 w_silent) = 9600 /\
  baud (DeviceSpeed w_silent) = 19200.
Proof. vm_compute. repeat split; reflexivity. Qed.

(** C2, counterexample.  The host is set to 12345, a rate without a device
    code.  Before the failure is reported, the command [AT] and its
    carriage return, three bytes, have been sent. *)
Lemma unsupported_rate_AT_sent_first :
  baudCode (baud w_unsupported) = None /\
  sent_before msg_invalid (log (DeviceSpeed w_unsupported)) = ["AT"%string; CR_text] /\
  log (DeviceSpeed w_unsupported)
  = [ESpeed 9600; EPrint msg_forcing; EBreak true; EDelay 6000; EBreak false;
     EStamp 6000; EPrint msg_timed_out; EDelay 1; EStamp 16001;
     EPrint msg_establish; EDelay 600;
     ESend "AT"; EPrint "AT"; ESend CR_text; EStamp 16601; EPrint msg_timed_out;
     EPrint msg_verify; EDelay 600;
     EPrint msg_invalid; EDelay 600;
     EPrint msg_set; EDelay 600;
     EPrint msg_write; EDelay 600;
     EPrint msg_exit; EDelay 600;
     ESpeed 12345].
Proof. vm_compute. repeat split; reflexivity. Qed.

Lemma unsupported_rate_witness :
  (exists c : ascii, baudCode 19200 = Some c) /\
  (exists pre post,
     log (DeviceSpeed w_unsupported)
     = log w_unsupported ++ pre ++ EPrint msg_invalid :: post /\
     sends pre = ["AT"%string; CR_text]).
Proof.
  destruct (unsupported_rate_reported_after_AT 19200 w_unsupported) as [Hin Hout].
  split.
  - apply Hin. vm_compute. tauto.
  - apply Hout. vm_compute. intros H.
    repeat (destruct H as [H|H]; [discriminate H|]). exact H.
Defined.

(** C3, counterexample.  The modem answers [ERROR] to everything.  The
    first step, [ForceMode], is classified negative and reported; after
    that report all four commands are dispatched. *)
Lemma commands_sent_after_negative_ForceMode :
  affirmative (exch_ForceMode w_error) = false /\
  sends (after_line msg_establish (log (DeviceSpeed w_error)))
  = ["AT"; CR_text; "ATBD 4"; CR_text; "ATWR"; CR_text; "ATCN"; CR_text]%string.
Proof. vm_compute. split; reflexivity. Qed.

Lemma negative_step_witness :
  length (sendStr w_error) = 10%nat /\
  (reported msg_establish (exch_ForceMode w_error) (after_ForceMode w_error) /\
   dispatched "AT" (after_ForceMode w_error) (exch_VerifyMode w_error)) /\
  (reported msg_verify (exch_VerifyMode w_error) (after_VerifyMode w_error) /\
   dispatched (atbd (code_of (baud w_error)))
     (prep_ApplyBaud (baud w_error) w_error) (exch_ApplyBaud (baud w_error) w_error)) /\
  (reported msg_set (exch_ApplyBaud (baud w_error) w_error)
     (after_ApplyBaud (baud w_error) w_error) /\
   dispatched "ATWR" (after_ApplyBaud (baud w_error) w_error)
     (exch_Persist (baud w_error) w_error)) /\
  (reported msg_write (exch_Persist (baud w_error) w_error)
     (after_Persist (baud w_error) w_error) /\
   dispatched "ATCN" (after_Persist (baud w_error) w_error)
     (exch_ExitMode (baud w_error) w_error)) /\
  (reported msg_exit (exch_ExitMode (baud w_error) w_error)
     (after_ExitMode (baud w_error) w_error) /\
   log (DeviceSpeed w_error)
   = log (after_ExitMode (baud w_error) w_error) ++ [ESpeed (baud w_error)]).
Proof.
  assert (Hlen : length (sendStr w_error) = 10%nat) by reflexivity.
  destruct (negative_step_reported_next_step_run w_error Hlen)
    as (H1 & H2 & H3 & H4 & H5).
  split; [exact Hlen|].
  split; [apply H1; vm_compute; reflexivity|].
  split; [destruct H2 as [R D]; [vm_compute; reflexivity|];
          split; [exact R | apply D; vm_compute; reflexivity]|].
  split; [destruct H3 as [R D]; [vm_compute; reflexivity|];
          split; [exact R | apply D; vm_compute; reflexivity]|].
  split; [destruct H4 as [R D]; [vm_compute; reflexivity|];
          split; [exact R | apply D; vm_compute; reflexivity]|].
  apply H5. vm_compute. reflexivity.
Defined.

(** * The response reader *)

Lemma In_firstn_self (c : ascii) (n : nat) (l : list ascii) :
  In c (firstn n l) -> In c l.
Proof.
  intros H. rewrite <- (firstn_skipn n l). apply in_or_app. now left.
Qed.

Lemma scan_length (room : nat) (s : list ascii) :
  (length (snd (scan room s)) <= room)%nat.
Proof.
  revert s. induction room as [|room IH]; intros [|c s]; cbn [scan snd length]; try lia.
  destruct (Ascii.eqb c CR); cbn [snd length]; [lia|].
  specialize (IH s). destruct (scan room s) as [r t]. cbn [snd length] in *. lia.
Qed.

(** What the reader leaves in the buffer: the bytes it stored, and a
    terminator behind them. *)
Lemma atRspReceive_content (rspLen : Z) (w : World) :
  1 <= rspLen -> (Z.to_nat rspLen <= length (rspStr w))%nat ->
  exists (r : bool) (t : list ascii) (w' : World),
    atRspReceive rspLen w = (r, w') /\
    (r, t) = scan (cap rspLen) (visible w) /\
    firstn (length t) (rspStr w') = t /\
    nth_error (rspStr w') (length t) = Some NUL /\
    pending w = taken_bytes r t ++ pending w' /\
    log w' = log w ++ map ERecv (taken_bytes r t)
                   ++ [EPrint (if r then text (rspStr w') else msg_timed_out)] /\
    (if r then elapsed w' < TIMEOUT else elapsed w' = Z.max (elapsed w) TIMEOUT).
Proof.
  intros Hlen Hbuf.
  destruct (atRspReceive_spec rspLen w)
    as (r & t & w' & Hrun & Hscan & Hrsp & Hpend & Hlog & _ & _ & _ & _ & Hel).
  exists r, t, w'. repeat (split; [assumption|]).
  assert (Ht : (length t <= cap rspLen)%nat).
  { pose proof (scan_length (cap rspLen) (visible w)) as H.
    rewrite <- Hscan in H. exact H. }
  destruct (fill_content t 0 (poke 0 NUL (rspStr w))) as [Hf Hn].
  - apply poke_nth_same. unfold cap in *. lia.
  - rewrite poke_length. unfold cap in *. lia.
  - cbn [Nat.add firstn app] in Hf, Hn. rewrite <- Hrsp in Hf, Hn.
    repeat split; assumption.
Qed.

(** C6, as the sketch has it.  [visible w] are the bytes that arrive
    before the deadline.  If the first carriage return among them has
    fewer than [rspLen - 1] bytes before it, the reader answers [true]
    (Complete) and the buffer holds exactly those bytes, followed by the
    terminator; read as a C string that is the same content, provided no
    byte is [\0].  If no carriage return arrives before the deadline, the
    reader answers [false] (TimedOut) and the buffer holds the bytes that
    did arrive, as far as there is room, followed by the terminator: at
    least the empty string. *)
Theorem reader_complete_or_timed_out (rspLen : Z) (w : World) (pre suf : list ascii) :
  1 <= rspLen -> (Z.to_nat rspLen <= length (rspStr w))%nat ->
  (visible w = pre ++ CR :: suf -> ~ In CR pre ->
   Z.of_nat (length pre) < rspLen - 1 ->
   fst (atRspReceive rspLen w) = true /\
   firstn (length pre) (rspStr (snd (atRspReceive rspLen w))) = pre /\
   nth_error (rspStr (snd (atRspReceive rspLen w))) (length pre) = Some NUL /\
   (~ In NUL pre -> cstr (rspStr (snd (atRspReceive rspLen w))) = pre)) /\
  (~ In CR (visible w) ->
   fst (atRspReceive rspLen w) = false /\
   exists got,
     got = firstn (cap rspLen) (visible w) /\
     firstn (length got) (rspStr (snd (atRspReceive rspLen w))) = got /\
     nth_error (rspStr (snd (atRspReceive rspLen w))) (length got) = Some NUL /\
     (~ In NUL got -> cstr (rspStr (snd (atRspReceive rspLen w))) = got)).
Proof.
  intros Hlen Hbuf.
  destruct (atRspReceive_content rspLen w Hlen Hbuf)
    as (r & t & w' & Hrun & Hscan & Hf & Hn & _).
  rewrite Hrun. cbn [fst snd]. split.
  - intros Hvis Hcr Hroom.
    rewrite Hvis, scan_found in Hscan by (trivial; unfold cap; lia).
    injection Hscan as -> ->.
    repeat split; try assumption. intros Hnul. now apply cstr_prefix.
  - intros Hcr.
    rewrite scan_none in Hscan.
    + injection Hscan as -> ->. split; [reflexivity|].
      eexists. split; [reflexivity|].
      repeat split; try assumption. intros Hnul. now apply cstr_prefix.
    + intros Hin. apply Hcr. eapply In_firstn_self, Hin.
Qed.

Lemma reader_witness_rspLen : 1 <= rspStrSize /\ (Z.to_nat rspStrSize <= 10)%nat.
Proof. unfold rspStrSize. lia. Qed.

Lemma reader_complete_or_timed_out_witness :
  (fst (atRspReceive rspStrSize w_ok_once) = true /\
   cstr (rspStr (snd (atRspReceive rspStrSize w_ok_once))) = chars "OK") /\
  (fst (atRspReceive rspStrSize w_ok_unterminated) = false /\
   cstr (rspStr (snd (atRspReceive rspStrSize w_ok_unterminated))) = chars "OK").
Proof.
  destruct reader_witness_rspLen as [H1 H2]. split.
  - destruct (reader_complete_or_timed_out rspStrSize w_ok_once (chars "OK") [] H1 H2)
      as [Hdone _].
    destruct Hdone as (Hr & _ & _ & Hc).
    + vm_compute. reflexivity.
    + vm_compute. intros [H|[H|[]]]; discriminate H.
    + vm_compute. reflexivity.
    + split; [exact Hr|]. apply Hc.
      vm_compute. intros [H|[H|[]]]; discriminate H.
  - destruct (reader_complete_or_timed_out rspStrSize w_ok_unterminated [] [] H1 H2)
      as [_ Hout].
    destruct Hout as (Hr & got & -> & _ & _ & Hc).
    + vm_compute. intros [H|[H|[]]]; discriminate H.
    + split; [exact Hr|]. apply Hc.
      vm_compute. intros [H|[H|[]]]; discriminate H.
Defined.

(** C6, counterexample.  Nine characters and then the carriage return
    arrive at once, ten bytes for the ten cells of [rspStr].  The reader
    stores the nine characters, never takes the carriage return out of
    the queue and answers [false] (TimedOut) at the deadline. *)
Lemma reader_nine_bytes_times_out :
  pending w_nine = chars "123456789" ++ [CR] /\
  fst (atRspReceive rspStrSize w_nine) = false /\
  cstr (rspStr (snd (atRspReceive rspStrSize w_nine))) = chars "123456789" /\
  rxq (snd (atRspReceive rspStrSize w_nine)) = [CR] /\
  elapsed (snd (atRspReceive rspStrSize w_nine)) = TIMEOUT.
Proof. vm_compute. repeat split; reflexivity. Qed.

(** C4, as the sketch has it.  Once the buffer holds [rspLen - 1] bytes
    and none of them was the carriage return, the reader takes nothing
    more out of the queue: what arrives afterwards, a carriage return
    included, stays pending for the next reader.  It polls until the
    deadline and answers [false] (TimedOut), with the [rspLen - 1] bytes
    and the terminator in the buffer. *)
Theorem reader_full_buffer_times_out (rspLen : Z) (w : World) (pre rest : list ascii) :
  1 <= rspLen -> (Z.to_nat rspLen <= length (rspStr w))%nat ->
  visible w = pre ++ rest -> length pre = cap rspLen -> ~ In CR pre ->
  fst (atRspReceive rspLen w) = false /\
  firstn (cap rspLen) (rspStr (snd (atRspReceive rspLen w))) = pre /\
  nth_error (rspStr (snd (atRspReceive rspLen w))) (cap rspLen) = Some NUL /\
  pending w = pre ++ pending (snd (atRspReceive rspLen w)) /\
  log (snd (atRspReceive rspLen w)) = log w ++ map ERecv pre ++ [EPrint msg_timed_out] /\
  elapsed (snd (atRspReceive rspLen w)) = Z.max (elapsed w) TIMEOUT.
Proof.
  intros Hlen Hbuf Hvis Hfull Hcr.
  destruct (atRspReceive_content rspLen w Hlen Hbuf)
    as (r & t & w' & Hrun & Hscan & Hf & Hn & Hpend & Hlog & Hel).
  rewrite Hrun. cbn [fst snd].
  assert (Hpre : firstn (cap rspLen) (visible w) = pre).
  { rewrite Hvis, <- Hfull, firstn_app, Nat.sub_diag, firstn_all.
    cbn [firstn]. apply app_nil_r. }
  rewrite scan_none in Hscan by (rewrite Hpre; exact Hcr).
  rewrite Hpre in Hscan. injection Hscan as -> ->.
  rewrite Hfull in Hf, Hn. unfold taken_bytes in Hpend, Hlog.
  rewrite app_nil_r in Hpend, Hlog.
  repeat split; assumption.
Qed.

Lemma reader_full_buffer_witness :
  fst (atRspReceive rspStrSize w_long) = false /\
  firstn (cap rspStrSize) (rspStr (snd (atRspReceive rspStrSize w_long)))
  = chars "012345678" /\
  pending w_long = chars "012345678" ++ pending (snd (atRspReceive rspStrSize w_long)).
Proof.
  destruct reader_witness_rspLen as [H1 H2].
  destruct (reader_full_buffer_times_out rspStrSize w_long
              (chars "012345678") (chars "9ABC" ++ [CR]) H1 H2)
    as (Hr & Hf & _ & Hp & _).
  - vm_compute. reflexivity.
  - vm_compute. reflexivity.
  - vm_compute. intros H.
    repeat (destruct H as [H|H]; [discriminate H|]). exact H.
  - split; [exact Hr | split; [exact Hf | exact Hp]].
Defined.

(** C4, counterexample.  Thirteen characters and a carriage return arrive
    at once.  The reader takes nine characters, then nothing: the other
    four characters and the carriage return are still in the receive
    queue when it returns, and it returns [false] (TimedOut), at the
    deadline. *)
Lemma reader_overlong_line_times_out :
  pending w_long = chars "0123456789ABC" ++ [CR] /\
  fst (atRspReceive rspStrSize w_long) = false /\
  cstr (rspStr (snd (atRspReceive rspStrSize w_long))) = chars "012345678" /\
  rxq (snd (atRspReceive rspStrSize w_long)) = chars "9ABC" ++ [CR] /\
  log (snd (atRspReceive rspStrSize w_long))
  = map ERecv (chars "012345678") ++ [EPrint msg_timed_out] /\
  elapsed (snd (atRspReceive rspStrSize w_long)) = TIMEOUT.
Proof. vm_compute. repeat split; reflexivity. Qed.

(** * Classification *)

Lemma code_inj (x y : ascii) : code x = code y -> x = y.
Proof.
  unfold code. intros H. apply N2Z.inj in H.
  rewrite <- (ascii_N_embedding x), <- (ascii_N_embedding y). now rewrite H.
Qed.

Lemma code_NUL (x : ascii) : code x = 0 -> x = NUL.
Proof. intros H. apply code_inj. exact H. Qed.

(** [strcmp] is zero exactly on equal C strings. *)
Lemma strcmp_zero_iff (a : list ascii) :
  forall b : list ascii, strcmp a b = 0 <-> cstr a = cstr b.
Proof.
  induction a as [|x a IH]; intros [|y b]; cbn [strcmp cstr].
  - tauto.
  - destruct (Ascii.eqb_spec y NUL) as [->|Hy].
    + split; reflexivity.
    + split; [intros H; exfalso; apply Hy, code_NUL; lia | discriminate].
  - destruct (Ascii.eqb_spec x NUL) as [->|Hx].
    + split; reflexivity.
    + split; [intros H; exfalso; apply Hx, code_NUL; lia | discriminate].
  - destruct (Ascii.eqb_spec x y) as [<-|Hxy].
    + destruct (Ascii.eqb_spec x NUL) as [->|Hx]; [tauto|].
      rewrite IH. split; [now intros -> | now intros [=]].
    + split.
      * intros H. exfalso. apply Hxy, code_inj. lia.
      * destruct (Ascii.eqb_spec x NUL), (Ascii.eqb_spec y NUL);
          subst; intros H; try discriminate H; congruence.
Qed.

Lemma affirmative_iff (w : World) :
  affirmative w = true <-> cstr (rspStr w) = chars "OK".
Proof.
  unfold affirmative. rewrite Z.eqb_eq, strcmp_zero_iff. reflexivity.
Qed.

(** C7, as the sketch has it.  The classification looks at the content of
    the buffer and at nothing else: it is affirmative exactly when the
    buffer, read as a C string, is [OK].  The content [ERROR] is negative,
    like any other content.  The completion status of the reader has no
    part in it: when nothing at all arrives before the deadline the
    content is empty and the classification negative, but a timeout as
    such is not classified negative. *)
Theorem affirmative_iff_content_OK (rspLen : Z) (w : World) :
  (affirmative w = true <-> cstr (rspStr w) = chars "OK") /\
  (cstr (rspStr w) = cstr ERR_MSG -> affirmative w = false) /\
  (1 <= rspLen -> (Z.to_nat rspLen <= length (rspStr w))%nat -> visible w = [] ->
   fst (atRspReceive rspLen w) = false /\
   affirmative (snd (atRspReceive rspLen w)) = false).
Proof.
  split; [apply affirmative_iff|]. split.
  - intros H. destruct (affirmative w) eqn:E; [|reflexivity].
    apply affirmative_iff in E. rewrite H in E. discriminate E.
  - intros Hlen Hbuf Hvis.
    destruct (atRspReceive_content rspLen w Hlen Hbuf)
      as (r & t & w' & Hrun & Hscan & _ & Hn & _).
    rewrite Hrun. cbn [fst snd].
    rewrite Hvis, scan_nil in Hscan. injection Hscan as -> ->.
    split; [reflexivity|].
    destruct (affirmative w') eqn:E; [|reflexivity].
    apply affirmative_iff in E.
    destruct (rspStr w') as [|c m]; [discriminate Hn|].
    cbn [length nth_error] in Hn. injection Hn as ->. discriminate E.
Qed.

Lemma affirmative_witness :
  affirmative w_idle = true /\ affirmative w_refused = false /\
  (fst (atRspReceive rspStrSize w_silent) = false /\
   affirmative (snd (atRspReceive rspStrSize w_silent)) = false).
Proof.
  destruct reader_witness_rspLen as [H1 H2].
  split; [|split].
  - destruct (affirmative_iff_content_OK rspStrSize w_idle) as ((_ & Hok) & _).
    apply Hok. reflexivity.
  - destruct (affirmative_iff_content_OK rspStrSize w_refused) as (_ & Herr & _).
    apply Herr. reflexivity.
  - destruct (affirmative_iff_content_OK rspStrSize w_silent) as (_ & _ & Hnone).
    apply Hnone; [exact H1 | exact H2 | vm_compute; reflexivity].
Defined.

(** C7, counterexample.  The modem sends [OK] without the carriage
    return.  The reader times out, and the response is classified
    affirmative. *)
Lemma timeout_classified_affirmative :
  fst (atRspReceive rspStrSize w_ok_unterminated) = false /\
  cstr (rspStr (snd (atRspReceive rspStrSize w_ok_unterminated))) = chars "OK" /\
  affirmative (snd (atRspReceive rspStrSize w_ok_unterminated)) = true.
Proof. vm_compute. repeat split; reflexivity. Qed.

(** * The command dispatcher *)

Lemma stale_iff (w : World) : stale w = true <-> TIMEOUT < elapsed w.
Proof. unfold stale. apply Z.ltb_lt. Qed.

Lemma sent_frame (cmd : list ascii) (w : World) :
  log (sent cmd w)
  = log w ++ [ESend (text cmd); EPrint (text cmd); ESend CR_text; EStamp (now w)] /\
  msLastCmd (sent cmd w) = now w /\ elapsed (sent cmd w) = 0.
Proof.
  split; [|split].
  - unfold sent, stamp, Send. fields. rewrite <- !app_assoc. reflexivity.
  - reflexivity.
  - unfold sent. apply elapsed_stamp.
Qed.

(** C8, as the sketch has it.  A dispatch that is not stale sends the
    command text, then one carriage return (with the echo of the command
    on the console in between), stamps [msLastCmd] with the time of the
    dispatch and runs the reader, whose deadline is therefore [TIMEOUT]
    = 10000 ms after the stamp: a reader that answers [false] returns
    exactly then, one that answers [true] before.  The dispatcher hands
    back the world the reader leaves, with the response in the caller's
    buffer; the reader's status is not part of what it returns. *)
Theorem atCommandSend_exchange (cmd : list ascii) (rspLen : Z) (w : World) :
  stale w = false ->
  log (sent cmd w)
  = log w ++ [ESend (text cmd); EPrint (text cmd); ESend CR_text; EStamp (now w)] /\
  msLastCmd (sent cmd w) = now w /\
  elapsed (sent cmd w) = 0 /\
  atCommandSend cmd rspLen w = snd (atRspReceive rspLen (sent cmd w)) /\
  grows no_send (sent cmd w) (atCommandSend cmd rspLen w) /\
  msLastCmd (atCommandSend cmd rspLen w) = now w /\
  (if fst (atRspReceive rspLen (sent cmd w))
   then elapsed (atCommandSend cmd rspLen w) < TIMEOUT
   else elapsed (atCommandSend cmd rspLen w) = TIMEOUT).
Proof.
  intros Hs.
  destruct (sent_frame cmd w) as (L & M & E).
  assert (Hdef : atCommandSend cmd rspLen w = snd (atRspReceive rspLen (sent cmd w)))
    by (apply atCommandSend_fresh, Hs).
  repeat (split; [assumption|]).
  rewrite Hdef.
  split; [apply atRspReceive_grows; intros; exact I|].
  destruct (atRspReceive_spec rspLen (sent cmd w))
    as (r & t & w' & Hrun & _ & _ & _ & _ & _ & _ & Hm & _ & He).
  rewrite Hrun. cbn [fst snd]. rewrite Hm, M. split; [reflexivity|].
  destruct r; [exact He|]. rewrite He, E. reflexivity.
Qed.

Lemma atCommandSend_exchange_witness :
  stale w_ok_once = false /\
  log (sent (lit "AT") w_ok_once)
  = [ESend "AT"; EPrint "AT"; ESend CR_text; EStamp 0] /\
  atCommandSend (lit "AT") rspStrSize w_ok_once
  = snd (atRspReceive rspStrSize (sent (lit "AT") w_ok_once)).
Proof.
  assert (Hs : stale w_ok_once = false) by reflexivity.
  destruct (atCommandSend_exchange (lit "AT") rspStrSize w_ok_once Hs)
    as (L & _ & _ & D & _).
  split; [exact Hs|]. split; [exact L | exact D].
Defined.

(** C8, counterexample.  Two dispatches of [AT]: to the first the modem
    answers [OK] and a carriage return, to the second [OK] without one.
    The reader answers [true] in the first and [false] in the second, and
    the dispatcher hands the caller the same response buffer, classified
    affirmative, both times: the completion status is not returned. *)
Lemma completion_status_not_returned :
  stale w_ok_once = false /\ stale w_ok_unterminated = false /\
  fst (atRspReceive rspStrSize (sent (lit "AT") w_ok_once)) = true /\
  fst (atRspReceive rspStrSize (sent (lit "AT") w_ok_unterminated)) = false /\
  rspStr (atCommandSend (lit "AT") rspStrSize w_ok_once)
  = rspStr (atCommandSend (lit "AT") rspStrSize w_ok_unterminated) /\
  affirmative (atCommandSend (lit "AT") rspStrSize w_ok_once) = true /\
  affirmative (atCommandSend (lit "AT") rspStrSize w_ok_unterminated) = true.
Proof. vm_compute. repeat split; reflexivity. Qed.

(** C5, as the sketch has it.  When more than [TIMEOUT] = 10000 ms have
    gone by since [msLastCmd], [atCommandSend] returns at once: nothing is
    sent, nothing is logged, no global is written, and nothing tells the
    caller that the dispatch was refused. *)
Theorem stale_dispatch_returns_at_once (cmd : list ascii) (rspLen : Z) (w : World) :
  TIMEOUT < elapsed w ->
  atCommandSend cmd rspLen w = w /\
  sends (log (atCommandSend cmd rspLen w)) = sends (log w).
Proof.
  intros H. apply stale_iff in H.
  rewrite (atCommandSend_stale cmd rspLen w H). split; reflexivity.
Qed.

Lemma stale_dispatch_witness :
  TIMEOUT < elapsed w_idle /\
  atCommandSend (lit "ATWR") rspStrSize w_idle = w_idle /\
  sends (log (atCommandSend (lit "ATWR") rspStrSize w_idle)) = sends (log w_idle).
Proof.
  assert (H : TIMEOUT < elapsed w_idle) by (vm_compute; reflexivity).
  split; [exact H|].
  exact (stale_dispatch_returns_at_once (lit "ATWR") rspStrSize w_idle H).
Defined.

(** C5, counterexample.  Twenty seconds after an exchange answered [OK],
    [ATWR] is dispatched.  The dispatch is refused, and no error comes
    out of it: the world is handed back as it was, the log empty, and
    the caller's test of the response passes. *)
Lemma stale_dispatch_signals_no_error :
  elapsed w_idle = 20000 /\
  atCommandSend (lit "ATWR") rspStrSize w_idle = w_idle /\
  log (atCommandSend (lit "ATWR") rspStrSize w_idle) = [] /\
  affirmative (atCommandSend (lit "ATWR") rspStrSize w_idle) = true /\
  log (check msg_write (atCommandSend (lit "ATWR") rspStrSize w_idle)) = [].
Proof. vm_compute. repeat split; reflexivity. Qed.

(** C10.  A dispatch refused for staleness leaves the response buffer as
    the previous exchange left it.  If that content is [OK], the caller's
    test [strcmp(rspStr, OK_MSG)] passes exactly as after an affirmative
    exchange: [check] reports nothing. *)
Theorem stale_dispatch_keeps_response
  (cmd : list ascii) (rspLen : Z) (message : string) (w : World) :
  TIMEOUT < elapsed w ->
  rspStr (atCommandSend cmd rspLen w) = rspStr w /\
  (affirmative w = true ->
   affirmative (atCommandSend cmd rspLen w) = true /\
   check message (atCommandSend cmd rspLen w) = atCommandSend cmd rspLen w).
Proof.
  intros H. apply stale_iff in H.
  rewrite (atCommandSend_stale cmd rspLen w H). split; [reflexivity|].
  intros Ha. split; [exact Ha | apply check_affirmative, Ha].
Qed.

Lemma stale_dispatch_keeps_response_witness :
  TIMEOUT < elapsed w_idle /\
  rspStr (atCommandSend (lit "ATWR") rspStrSize w_idle) = chars "OK" ++ repeat NUL 8 /\
  affirmative (atCommandSend (lit "ATWR") rspStrSize w_idle) = true /\
  check msg_write (atCommandSend (lit "ATWR") rspStrSize w_idle)
  = atCommandSend (lit "ATWR") rspStrSize w_idle /\
  rspStr (atCommandSend (lit "ATWR") rspStrSize w_idle)
  = rspStr (atCommandSend (lit "ATWR") rspStrSize w_ok_once).
Proof.
  assert (H : TIMEOUT < elapsed w_idle) by (vm_compute; reflexivity).
  destruct (stale_dispatch_keeps_response (lit "ATWR") rspStrSize msg_write w_idle H)
    as [Hr Ha].
  destruct Ha as [Ha Hc]; [reflexivity|].
  split; [exact H|]. split; [exact Hr|]. split; [exact Ha|]. split; [exact Hc|].
  vm_compute. reflexivity.
Defined.

(** * Further properties of the reader *)

Lemma scan_props (room : nat) :
  forall s : list ascii,
    ~ In CR (snd (scan room s)) /\
    (length (snd (scan room s)) <= room)%nat /\
    exists rest,
      s = snd (scan room s) ++ (if fst (scan room s) then [CR] else []) ++ rest.
Proof.
  induction room as [|room IH]; intros [|c s]; cbn [scan fst snd length app];
    try (split; [tauto|split; [lia|eexists; reflexivity]]).
  destruct (Ascii.eqb_spec c CR) as [->|Hc]; cbn [fst snd length app].
  - split; [tauto|split; [lia|eexists; reflexivity]].
  - destruct (IH s) as (Hin & Hlen & rest & Hs).
    destruct (scan room s) as [r t]. cbn [fst snd length app In] in *.
    split; [intros [H|H]; [congruence | tauto]|].
    split; [lia|]. exists rest. now rewrite Hs at 1.
Qed.

Lemma cstr_terminated (t rest : list ascii) : cstr (t ++ NUL :: rest) = cstr t.
Proof.
  induction t as [|c t IH]; cbn [app cstr].
  - reflexivity.
  - destruct (Ascii.eqb c NUL); [reflexivity | now rewrite IH].
Qed.

Lemma cstr_sub (t : list ascii) :
  (length (cstr t) <= length t)%nat /\ forall c, In c (cstr t) -> In c t.
Proof.
  induction t as [|x t [IHl IHi]]; cbn [cstr length].
  - split; [lia | tauto].
  - destruct (Ascii.eqb x NUL); cbn [length In].
    + split; [lia | tauto].
    + split; [lia|]. intros c [H|H]; [now left | right; now apply IHi].
Qed.

Lemma terminated_split (t : list ascii) :
  forall mem : list ascii,
    firstn (length t) mem = t -> nth_error mem (length t) = Some NUL ->
    exists rest, mem = t ++ NUL :: rest.
Proof.
  induction t as [|c t IH]; intros [|x mem] Hf Hn; cbn [length firstn nth_error] in *;
    try discriminate.
  - injection Hn as ->. eexists. reflexivity.
  - injection Hf as -> Hf. destruct (IH mem Hf Hn) as (rest & ->).
    eexists. reflexivity.
Qed.

Lemma skipn_poke (n i : nat) (c : ascii) :
  forall mem : list ascii, (i < n)%nat -> skipn n (poke i c mem) = skipn n mem.
Proof.
  revert i. induction n as [|n IH]; intros i mem H; [lia|].
  destruct mem as [|x mem]; [destruct i; reflexivity|].
  destruct i as [|i]; cbn [poke skipn]; [reflexivity|].
  apply IH. lia.
Qed.

Lemma skipn_fill (n : nat) (cs : list ascii) :
  forall (idx : nat) (mem : list ascii),
    (idx + length cs < n)%nat -> skipn n (fill idx cs mem) = skipn n mem.
Proof.
  induction cs as [|c cs IH]; intros idx mem H; cbn [fill length] in *.
  - reflexivity.
  - rewrite IH by lia. rewrite !skipn_poke by lia. reflexivity.
Qed.

(** The loop only waits: it ends [k] milliseconds later, for some [k]. *)
Lemma rsp_loop_waits (rspLen : Z) (fuel : nat) :
  forall (idx : nat) (w : World) (r : bool) (w' : World),
    rsp_loop fuel rspLen idx w = Some (r, w') ->
    exists k : nat,
      elapsed w' = elapsed w + Z.of_nat k /\
      now w' = match k with O => now w | S _ => wrap32 (now w + Z.of_nat k) end.
Proof.
  induction fuel as [|fuel IH]; intros idx w r w' Hrun; [discriminate Hrun|].
  cbn [rsp_loop] in Hrun.
  destruct (Z.ltb_spec (elapsed w) TIMEOUT) as [He|He].
  2:{ injection Hrun as <- <-. exists O. split; [|reflexivity].
      rewrite (elapsed_eq w (println msg_timed_out w)) by reflexivity. lia. }
  assert (Hidle : rsp_loop fuel rspLen idx (tick w) = Some (r, w') ->
                  exists k : nat,
                    elapsed w' = elapsed w + Z.of_nat k /\
                    now w' = match k with
                             | O => now w
                             | S _ => wrap32 (now w + Z.of_nat k)
                             end).
  { intros H. destruct (IH _ _ _ _ H) as (k & Ek & Nk).
    exists (S k). rewrite (elapsed_tick_before w He) in Ek. split; [lia|].
    rewrite Nk. destruct k as [|k]; unfold tick; fields.
    - reflexivity.
    - rewrite wrap32_add_l. f_equal. lia. }
  unfold AvailableForRead in Hrun.
  destruct (rxq w) as [|c q] eqn:Hq; [exact (Hidle Hrun)|].
  destruct (Z.of_nat idx <? rspLen - 1); [|exact (Hidle Hrun)].
  unfold CharGet in Hrun. rewrite Hq in Hrun.
  destruct (Ascii.eqb c CR).
  - injection Hrun as <- <-. exists O. split; [|reflexivity].
    rewrite (elapsed_eq w) by reflexivity. lia.
  - destruct (IH _ _ _ _ Hrun) as (k & Ek & Nk).
    exists k. rewrite Ek, Nk. split; reflexivity.
Qed.

#[local] Transparent atRspReceive.

Lemma atRspReceive_loop (rspLen : Z) (w : World) :
  rsp_loop (rsp_fuel rspLen) rspLen 0 (set_rspStr (poke 0 NUL (rspStr w)) w)
  = Some (atRspReceive rspLen w).
Proof.
  unfold atRspReceive.
  destruct (rsp_loop_fuel rspLen (set_rspStr (poke 0 NUL (rspStr w)) w)) as (r & ->).
  reflexivity.
Qed.

#[global] Opaque atRspReceive.

Lemma atRspReceive_waits (rspLen : Z) (w : World) :
  exists k : nat,
    elapsed (snd (atRspReceive rspLen w)) = elapsed w + Z.of_nat k /\
    now (snd (atRspReceive rspLen w))
    = match k with O => now w | S _ => wrap32 (now w + Z.of_nat k) end.
Proof.
  pose proof (atRspReceive_loop rspLen w) as Hrun.
  destruct (atRspReceive rspLen w) as [r w'].
  destruct (rsp_loop_waits _ _ _ _ _ _ Hrun) as (k & Ek & Nk).
  exists k. cbn [snd]. split; [exact Ek | exact Nk].
Qed.

(** X1.  [atRspReceive] only waits, and never past its deadline: it
    returns [k] milliseconds after it was called, with [msLastCmd] as it
    was; called before the deadline it returns no later than the
    deadline, called at or after the deadline it returns at once; and it
    answers [false] only when the deadline has been reached. *)
Theorem reader_waits_at_most_to_deadline (rspLen : Z) (w : World) :
  exists k : nat,
    elapsed (snd (atRspReceive rspLen w)) = elapsed w + Z.of_nat k /\
    now (snd (atRspReceive rspLen w))
    = match k with O => now w | S _ => wrap32 (now w + Z.of_nat k) end /\
    msLastCmd (snd (atRspReceive rspLen w)) = msLastCmd w /\
    (elapsed w < TIMEOUT -> elapsed w + Z.of_nat k <= TIMEOUT) /\
    (TIMEOUT <= elapsed w -> k = O) /\
    (fst (atRspReceive rspLen w) = false -> TIMEOUT <= elapsed w + Z.of_nat k) /\
    (fst (atRspReceive rspLen w) = true -> elapsed w + Z.of_nat k < TIMEOUT).
Proof.
  destruct (atRspReceive_waits rspLen w) as (k & Ek & Nk).
  destruct (atRspReceive_spec rspLen w)
    as (r & t & w' & Hrun & _ & _ & _ & _ & _ & _ & Hm & _ & He).
  rewrite Hrun in *. cbn [fst snd] in *.
  exists k. split; [exact Ek|]. split; [exact Nk|]. split; [exact Hm|].
  rewrite Ek in He. destruct r.
  - split; [lia|]. split; [lia|]. split; [discriminate | intros _; exact He].
  - split; [lia|]. split; [lia|]. split; [lia | discriminate].
Qed.

Lemma reader_waits_witness :
  exists k : nat,
    elapsed (snd (atRspReceive rspStrSize w_silent)) = elapsed w_silent + Z.of_nat k /\
    elapsed w_silent + Z.of_nat k <= TIMEOUT.
Proof.
  destruct (reader_waits_at_most_to_deadline rspStrSize w_silent)
    as (k & Ek & _ & _ & Hle & _).
  exists k. split; [exact Ek|]. apply Hle. vm_compute. reflexivity.
Defined.

(** X2.  [atRspReceive] stays inside the [rspLen] cells it is given: the
    buffer beyond them is left as it was, and what it leaves in them is a
    C string of at most [rspLen - 1] characters without a carriage
    return. *)
Theorem reader_keeps_bounds (rspLen : Z) (w : World) :
  1 <= rspLen -> (Z.to_nat rspLen <= length (rspStr w))%nat ->
  length (rspStr (snd (atRspReceive rspLen w))) = length (rspStr w) /\
  skipn (Z.to_nat rspLen) (rspStr (snd (atRspReceive rspLen w)))
  = skipn (Z.to_nat rspLen) (rspStr w) /\
  Z.of_nat (length (cstr (rspStr (snd (atRspReceive rspLen w))))) <= rspLen - 1 /\
  ~ In CR (cstr (rspStr (snd (atRspReceive rspLen w)))).
Proof.
  intros Hlen Hbuf.
  destruct (atRspReceive_content rspLen w Hlen Hbuf)
    as (r & t & w' & Hrun & Hscan & Hf & Hn & _).
  destruct (atRspReceive_spec rspLen w)
    as (r2 & t2 & w2 & Hrun2 & Hscan2 & Hrsp & _).
  assert (Ew : w2 = w') by congruence.
  assert (Et : t2 = t) by congruence.
  rewrite Ew, Et in Hrsp. clear r2 t2 w2 Hrun2 Hscan2 Ew Et.
  rewrite Hrun. cbn [snd].
  destruct (scan_props (cap rspLen) (visible w)) as (Hcr & Ht & _).
  rewrite <- Hscan in Hcr, Ht. cbn [snd] in Hcr, Ht.
  destruct (terminated_split t _ Hf Hn) as (rest & Hmem).
  destruct (cstr_sub t) as [Hcl Hci].
  split; [|split; [|split]].
  - rewrite Hrsp, fill_length, poke_length. reflexivity.
  - rewrite Hrsp, skipn_fill, skipn_poke by (unfold cap in Ht; cbn [Nat.add]; lia).
    reflexivity.
  - rewrite Hmem, cstr_terminated. unfold cap in Ht. lia.
  - rewrite Hmem, cstr_terminated. intros H. apply Hcr, Hci, H.
Qed.

Lemma reader_keeps_bounds_witness :
  skipn 5 (rspStr (snd (atRspReceive 5 w_long))) = skipn 5 (rspStr w_long) /\
  Z.of_nat (length (cstr (rspStr (snd (atRspReceive 5 w_long))))) <= 5 - 1.
Proof.
  destruct (reader_keeps_bounds 5 w_long) as (_ & Hs & Hl & _).
  - lia.
  - vm_compute. lia.
  - split; [exact Hs | exact Hl].
Defined.

(** X3.  What [atRspReceive] leaves as the response comes from the
    incoming bytes alone, whatever the buffer held before: the reader
    takes the bytes [stored] from the front of the stream, and the
    carriage return behind them when it answers [true]; everything
    behind stays in the stream to be read later; the response is
    [stored] read as a C string. *)
Theorem reader_content_is_stream_prefix (rspLen : Z) (w : World) :
  1 <= rspLen -> (Z.to_nat rspLen <= length (rspStr w))%nat ->
  exists stored : list ascii,
    pending w
    = stored ++ (if fst (atRspReceive rspLen w) then [CR] else [])
             ++ pending (snd (atRspReceive rspLen w)) /\
    cstr (rspStr (snd (atRspReceive rspLen w))) = cstr stored /\
    ~ In CR stored /\ (length stored <= cap rspLen)%nat.
Proof.
  intros Hlen Hbuf.
  destruct (atRspReceive_content rspLen w Hlen Hbuf)
    as (r & t & w' & Hrun & Hscan & Hf & Hn & Hpend & _).
  rewrite Hrun. cbn [fst snd].
  destruct (scan_props (cap rspLen) (visible w)) as (Hcr & Ht & _).
  rewrite <- Hscan in Hcr, Ht. cbn [snd] in Hcr, Ht.
  destruct (terminated_split t _ Hf Hn) as (rest & Hmem).
  exists t. unfold taken_bytes in Hpend. rewrite <- app_assoc in Hpend.
  split; [exact Hpend|]. split; [|split; assumption].
  rewrite Hmem. apply cstr_terminated.
Qed.

Lemma reader_content_witness :
  exists stored : list ascii,
    pending w_long
    = stored ++ (if fst (atRspReceive rspStrSize w_long) then [CR] else [])
             ++ pending (snd (atRspReceive rspStrSize w_long)) /\
    cstr (rspStr (snd (atRspReceive rspStrSize w_long))) = cstr stored.
Proof.
  destruct reader_witness_rspLen as [H1 H2].
  destruct (reader_content_is_stream_prefix rspStrSize w_long H1 H2)
    as (stored & Hp & Hc & _).
  exists stored. split; [exact Hp | exact Hc].
Defined.

(** X4.  A reader that is called at or after the deadline, or with a
    buffer of one cell or none, takes nothing out of the queue, even
    when a reply is waiting there: it answers [false], empties the
    response ([rsp[0] = 0], also for [rspLen = 0]) and prints the
    time-out line. *)
Theorem reader_without_time_or_room (rspLen : Z) (w : World) :
  TIMEOUT <= elapsed w \/ rspLen <= 1 ->
  fst (atRspReceive rspLen w) = false /\
  pending (snd (atRspReceive rspLen w)) = pending w /\
  rspStr (snd (atRspReceive rspLen w)) = poke 0 NUL (rspStr w) /\
  log (snd (atRspReceive rspLen w)) = log w ++ [EPrint msg_timed_out].
Proof.
  intros Hcase.
  destruct (atRspReceive_spec rspLen w)
    as (r & t & w' & Hrun & Hscan & Hrsp & Hpend & Hlog & _).
  assert (Hnone : scan (cap rspLen) (visible w) = (false, [])).
  { destruct Hcase as [He|Hl].
    - rewrite (visible_expired w He). apply scan_nil.
    - replace (cap rspLen) with O by (unfold cap; lia). reflexivity. }
  rewrite Hnone in Hscan. injection Hscan as -> ->.
  rewrite Hrun. cbn [fst snd].
  unfold taken_bytes in Hpend, Hlog. cbn [app map fill] in Hpend, Hlog, Hrsp.
  split; [reflexivity|]. split; [now symmetry|]. split; assumption.
Qed.

Lemma reader_without_time_witness :
  fst (atRspReceive rspStrSize w_late) = false /\
  pending (snd (atRspReceive rspStrSize w_late)) = OK_reply /\
  cstr (rspStr (snd (atRspReceive rspStrSize w_late))) = [].
Proof.
  destruct (reader_without_time_or_room rspStrSize w_late) as (Hr & Hp & Hs & _).
  - left. vm_compute. discriminate.
  - split; [exact Hr|]. split; [exact Hp|]. rewrite Hs. reflexivity.
Defined.

(** * Further properties of the dispatcher *)

Lemma stale_false_iff (w : World) : stale w = false <-> elapsed w <= TIMEOUT.
Proof. unfold stale. rewrite Z.ltb_ge. reflexivity. Qed.

Lemma atCommandSend_elapsed (cmd : list ascii) (rspLen : Z) (w : World) :
  stale w = false ->
  elapsed (atCommandSend cmd rspLen w) <= TIMEOUT /\
  (fst (atRspReceive rspLen (sent cmd w)) = false ->
   elapsed (atCommandSend cmd rspLen w) = TIMEOUT).
Proof.
  intros Hs. rewrite (atCommandSend_fresh cmd rspLen w Hs).
  change (stamp (Send [CR; NUL] (println (text cmd) (Send cmd w)))) with (sent cmd w).
  destruct (sent_frame cmd w) as (_ & _ & E).
  destruct (atRspReceive_spec rspLen (sent cmd w))
    as (r & t & w' & Hrun & _ & _ & _ & _ & _ & _ & _ & _ & He).
  rewrite Hrun. cbn [fst snd]. rewrite E in He. unfold TIMEOUT in *. destruct r.
  - split; [lia | discriminate].
  - split; [lia | intros _; lia].
Qed.



(** What one step of [DeviceSpeed] sends: the command and its carriage
    return, or nothing when the session is stale. *)
Lemma step_sends (message : string) (cmd : list ascii) (rspLen : Z) (w : World) :
  sends (log (check message (atCommandSend cmd rspLen w)))
  = sends (log w) ++ (if stale w then [] else [text cmd; CR_text]).
Proof.
  destruct (check_grows no_send message (atCommandSend cmd rspLen w) I I)
    as (l & El & Fl).
  rewrite El, sends_app, (sends_quiet l Fl), app_nil_r.
  destruct (stale w) eqn:Hs.
  - rewrite (atCommandSend_stale cmd rspLen w Hs). now rewrite app_nil_r.
  - destruct (atCommandSend_dispatched cmd rspLen w Hs) as (rest & Er & Sr).
    rewrite Er, sends_app. cbn [sends]. rewrite Sr. reflexivity.
Qed.

(** * Further properties of the reconfiguration *)

Lemma text_prep_ApplyBaud (speed : Z) (w : World) :
  length (sendStr w) = 10%nat ->
  text (sendStr (prep_ApplyBaud speed w)) = atbd (code_of speed).
Proof.
  intros Hlen. rewrite prep_ApplyBaud_unfold, text_fill_sendStr.
  - now rewrite fst_pick_code.
  - now rewrite sendStr_pick_code, sendStr_after_VerifyMode.
  - apply pick_code_not_NUL.
Qed.

Lemma silent_prep_ApplyBaud (speed : Z) (w : World) :
  grows no_send (after_VerifyMode w) (prep_ApplyBaud speed w).
Proof.
  rewrite prep_ApplyBaud_unfold.
  destruct (fill_sendStr_frame (fst (pick_code speed (after_VerifyMode w)))
              (snd (pick_code speed (after_VerifyMode w)))) as (_ & L & _).
  eapply grows_trans; [|apply grows_same_log; exact L].
  destruct (baudCode speed) as [c|] eqn:E.
  - rewrite (pick_code_supported speed c _ E). apply grows_refl.
  - rewrite (pick_code_unsupported speed _ E). apply exitFail_grows; exact I.
Qed.

Lemma text_lit_ATWR : text (lit "ATWR") = "ATWR"%string.
Proof. reflexivity. Qed.

Lemma text_lit_ATCN : text (lit "ATCN") = "ATCN"%string.
Proof. reflexivity. Qed.

(** The bytes [DeviceSpeed] sends, in terms of the sessions it finds. *)
Lemma DeviceSpeed_sends_aux (w : World) :
  sends (log (DeviceSpeed w))
  = sends (log w) ++ ["AT"%string; CR_text]
    ++ (if stale (prep_ApplyBaud (baud w) w) then []
        else [text (sendStr (prep_ApplyBaud (baud w) w)); CR_text])
    ++ (if stale (after_ApplyBaud (baud w) w) then [] else ["ATWR"%string; CR_text])
    ++ (if stale (after_Persist (baud w) w) then [] else ["ATCN"%string; CR_text]).
Proof.
  rewrite DeviceSpeed_unfold.
  destruct (Speed_set_frame (baud w) (after_ExitMode (baud w) w)) as (_ & L).
  rewrite L, sends_app. cbn [sends]. rewrite app_nil_r.
  unfold after_ExitMode, exch_ExitMode. rewrite step_sends, text_lit_ATCN.
  unfold after_Persist, exch_Persist. rewrite step_sends, text_lit_ATWR.
  unfold after_ApplyBaud, exch_ApplyBaud. rewrite step_sends.
  destruct (silent_prep_ApplyBaud (baud w) w) as (l & El & Fl).
  destruct (sent_until_VerifyMode w) as (pre & Epre & Spre).
  rewrite El, Epre, !sends_app, Spre, (sends_quiet l Fl), app_nil_r.
  rewrite <- !app_assoc. reflexivity.
Qed.

(** X6.  [DeviceSpeed] sends nothing but its four commands, each followed
    by one carriage return, in the order [AT], [ATBD <code>], [ATWR],
    [ATCN].  [AT] is sent in every run; each of the others is sent
    exactly when the session is not stale at its turn.  The code in
    [ATBD] is the one of the host's rate, or [0] when it has none. *)
Theorem DeviceSpeed_sends (w : World) :
  length (sendStr w) = 10%nat ->
  sends (log (DeviceSpeed w))
  = sends (log w) ++ ["AT"%string; CR_text]
    ++ (if stale (prep_ApplyBaud (baud w) w) then []
        else [atbd (code_of (baud w)); CR_text])
    ++ (if stale (after_ApplyBaud (baud w) w) then [] else ["ATWR"%string; CR_text])
    ++ (if stale (after_Persist (baud w) w) then [] else ["ATCN"%string; CR_text]).
Proof.
  intros Hlen. rewrite DeviceSpeed_sends_aux, (text_prep_ApplyBaud (baud w) w Hlen).
  reflexivity.
Qed.

Lemma DeviceSpeed_sends_witness :
  sends (log (DeviceSpeed w_error))
  = ["AT"; CR_text; "ATBD 4"; CR_text; "ATWR"; CR_text; "ATCN"; CR_text]%string.
Proof.
  assert (Hlen : length (sendStr w_error) = 10%nat) by reflexivity.
  rewrite (DeviceSpeed_sends w_error Hlen). vm_compute. reflexivity.
Defined.

Lemma affirmative_rspStr (w w' : World) :
  rspStr w' = rspStr w -> affirmative w' = affirmative w.
Proof. intros H. unfold affirmative. now rewrite H. Qed.

(** A step that finds the session stale and the response negative sends
    nothing, reports its failure and leaves the session 600 ms staler. *)
Lemma refused_step (message : string) (cmd : list ascii) (rspLen e : Z) (w : World) :
  TIMEOUT < elapsed w <= e -> e + 600 < 2 ^ 32 -> affirmative w = false ->
  stale w = true /\
  TIMEOUT < elapsed (check message (atCommandSend cmd rspLen w)) <= e + 600 /\
  affirmative (check message (atCommandSend cmd rspLen w)) = false.
Proof.
  intros [Hlo Hhi] He Ha.
  assert (Hs : stale w = true) by (apply stale_iff, Hlo).
  rewrite (atCommandSend_stale cmd rspLen w Hs), (check_negative message w Ha).
  destruct (exitFail_frame message w) as (_ & _ & _ & _ & Hr & _ & Hel).
  split; [exact Hs|]. split.
  - rewrite Hel, wrap32_small by (unfold TIMEOUT in *; lia). lia.
  - rewrite (affirmative_rspStr w _ Hr). exact Ha.
Qed.

Lemma prep_ApplyBaud_frame (speed : Z) (w : World) :
  rspStr (prep_ApplyBaud speed w) = rspStr (after_VerifyMode w) /\
  (elapsed (prep_ApplyBaud speed w) = elapsed (after_VerifyMode w) \/
   elapsed (prep_ApplyBaud speed w) = wrap32 (elapsed (after_VerifyMode w) + 600)) /\
  (forall c, baudCode speed = Some c ->
             elapsed (prep_ApplyBaud speed w) = elapsed (after_VerifyMode w)).
Proof.
  rewrite prep_ApplyBaud_unfold.
  destruct (fill_sendStr_frame (fst (pick_code speed (after_VerifyMode w)))
              (snd (pick_code speed (after_VerifyMode w)))) as (_ & _ & R & E & _).
  rewrite R, E.
  destruct (baudCode speed) as [c|] eqn:Hc.
  - rewrite (pick_code_supported speed c _ Hc). cbn [snd].
    split; [reflexivity|]. split; [now left | reflexivity].
  - rewrite (pick_code_unsupported speed _ Hc). cbn [snd].
    destruct (exitFail_frame msg_invalid (after_VerifyMode w))
      as (_ & _ & _ & _ & Hr & _ & Hel).
    split; [exact Hr|]. split; [now right | discriminate].
Qed.

(** X7.  Once the exchange of [AT] has run into its deadline with a
    response other than [OK], [DeviceSpeed] sends nothing more: the
    600 ms of the failure report make the session stale, every later
    dispatch is refused and leaves the response as it is, so every later
    step fails in turn.  [AT] and its carriage return are all that was
    sent. *)
Theorem DeviceSpeed_silent_after_timeout (w : World) :
  fst (atRspReceive rspStrSize (sent (lit "AT") (after_ForceMode w))) = false ->
  affirmative (exch_VerifyMode w) = false ->
  stale (prep_ApplyBaud (baud w) w) = true /\
  stale (after_ApplyBaud (baud w) w) = true /\
  stale (after_Persist (baud w) w) = true /\
  affirmative (exch_ExitMode (baud w) w) = false /\
  sends (log (DeviceSpeed w)) = sends (log w) ++ ["AT"%string; CR_text].
Proof.
  intros Hto Hneg.
  assert (E0 : elapsed (exch_VerifyMode w) = TIMEOUT).
  { unfold exch_VerifyMode.
    apply (atCommandSend_elapsed (lit "AT") rspStrSize _ (fresh_VerifyMode w)), Hto. }
  assert (H1 : TIMEOUT < elapsed (after_VerifyMode w) <= 10600 /\
               affirmative (after_VerifyMode w) = false).
  { unfold after_VerifyMode.
    rewrite (check_negative msg_verify (exch_VerifyMode w) Hneg).
    destruct (exitFail_frame msg_verify (exch_VerifyMode w))
      as (_ & _ & _ & _ & Hr & _ & Hel).
    rewrite Hel, E0, (affirmative_rspStr _ _ Hr). unfold TIMEOUT.
    split; [vm_compute; split; [reflexivity | discriminate] | exact Hneg]. }
  destruct H1 as [B1 A1].
  assert (H2 : TIMEOUT < elapsed (prep_ApplyBaud (baud w) w) <= 11200 /\
               affirmative (prep_ApplyBaud (baud w) w) = false).
  { destruct (prep_ApplyBaud_frame (baud w) w) as (Hr & [Hel|Hel] & _);
      rewrite (affirmative_rspStr _ _ Hr), Hel.
    - split; [lia | exact A1].
    - rewrite wrap32_small by (unfold TIMEOUT in *; lia).
      split; [lia | exact A1]. }
  destruct H2 as [B2 A2].
  destruct (refused_step msg_set (sendStr (prep_ApplyBaud (baud w) w)) rspStrSize
              11200 _ B2 ltac:(lia) A2) as (S2 & B3 & A3).
  fold (exch_ApplyBaud (baud w) w) in B3, A3.
  fold (after_ApplyBaud (baud w) w) in B3, A3.
  destruct (refused_step msg_write (lit "ATWR") rspStrSize _ _ B3 ltac:(lia) A3)
    as (S3 & B4 & A4).
  fold (exch_Persist (baud w) w) in B4, A4.
  fold (after_Persist (baud w) w) in B4, A4.
  assert (S4 : stale (after_Persist (baud w) w) = true)
    by (apply stale_iff; lia).
  split; [exact S2|]. split; [exact S3|]. split; [exact S4|]. split.
  - unfold exch_ExitMode. rewrite (atCommandSend_stale _ _ _ S4). exact A4.
  - rewrite DeviceSpeed_sends_aux, S2, S3, S4. reflexivity.
Qed.

Lemma DeviceSpeed_silent_after_timeout_witness :
  sends (log (DeviceSpeed w_silent)) = ["AT"%string; CR_text].
Proof.
  destruct (DeviceSpeed_silent_after_timeout w_silent) as (_ & _ & _ & _ & H).
  - vm_compute. reflexivity.
  - vm_compute. reflexivity.
  - exact H.
Defined.



(** * How long it takes *)

Lemma lasts_same (w w' : World) : now w' = now w -> lasts 0 0 w w'.
Proof.
  intros H R. rewrite H. split; [exact R|].
  exists 0. split; [lia|]. rewrite Z.add_0_r. symmetry. apply wrap32_small, R.
Qed.

Lemma lasts_trans (a b c d : Z) (w1 w2 w3 : World) :
  lasts a b w1 w2 -> lasts c d w2 w3 -> lasts (a + c) (b + d) w1 w3.
Proof.
  intros H12 H23 R1. destruct (H12 R1) as (R2 & d1 & B1 & N1).
  destruct (H23 R2) as (R3 & d2 & B2 & N2). split; [exact R3|].
  exists (d1 + d2). split; [lia|].
  rewrite N2, N1, wrap32_add_l. f_equal. lia.
Qed.

Lemma lasts_weaken (a b a' b' : Z) (w w' : World) :
  a' <= a -> b <= b' -> lasts a b w w' -> lasts a' b' w w'.
Proof.
  intros Ha Hb H R. destruct (H R) as (R' & d & B & N). split; [exact R'|].
  exists d. split; [lia | exact N].
Qed.

Lemma lasts_exact (d : Z) (w w' : World) :
  now w' = wrap32 (now w + d) -> lasts d d w w'.
Proof.
  intros H _. rewrite H. split; [apply wrap32_range|].
  exists d. split; [lia | reflexivity].
Qed.

#[local] Transparent exitFail.

Lemma now_exitFail (message : string) (w : World) :
  now (exitFail message w) = wrap32 (now w + 600).
Proof. unfold exitFail. rewrite now_delay by lia. reflexivity. Qed.

#[global] Opaque exitFail.

Lemma lasts_check (message : string) (w : World) : lasts 0 600 w (check message w).
Proof.
  unfold check. destruct (affirmative w).
  - apply (lasts_weaken 0 0); [lia | lia | now apply lasts_same].
  - apply (lasts_weaken 600 600); [lia | lia | apply lasts_exact, now_exitFail].
Qed.

Lemma lasts_atRspReceive (rspLen : Z) (w : World) :
  lasts 0 TIMEOUT w (snd (atRspReceive rspLen w)).
Proof.
  intros R.
  destruct (atRspReceive_waits rspLen w) as (k & Ek & Nk).
  pose proof (elapsed_range w) as Re.
  assert (Hk : Z.of_nat k <= TIMEOUT).
  { destruct (atRspReceive_spec rspLen w)
      as (r & t & w' & Hrun & _ & _ & _ & _ & _ & _ & _ & _ & He).
    rewrite Hrun in Ek. cbn [snd] in Ek. rewrite Ek in He.
    unfold TIMEOUT in *. destruct r; lia. }
  assert (Hn : now (snd (atRspReceive rspLen w)) = wrap32 (now w + Z.of_nat k)).
  { rewrite Nk. destruct k as [|k]; [|reflexivity].
    cbn [Z.of_nat]. rewrite Z.add_0_r. symmetry. apply wrap32_small, R. }
  rewrite Hn. split; [apply wrap32_range|].
  exists (Z.of_nat k). split; [lia | reflexivity].
Qed.

Lemma lasts_atCommandSend (cmd : list ascii) (rspLen : Z) (w : World) :
  lasts 0 TIMEOUT w (atCommandSend cmd rspLen w).
Proof.
  destruct (stale w) eqn:Hs.
  - rewrite (atCommandSend_stale cmd rspLen w Hs).
    apply (lasts_weaken 0 0); [lia | unfold TIMEOUT; lia | now apply lasts_same].
  - rewrite (atCommandSend_fresh cmd rspLen w Hs).
    intros R.
    exact (lasts_atRspReceive rspLen
             (stamp (Send [CR; NUL] (println (text cmd) (Send cmd w)))) R).
Qed.

Lemma lasts_step (message : string) (cmd : list ascii) (rspLen : Z) (w : World) :
  lasts 0 (TIMEOUT + 600) w (check message (atCommandSend cmd rspLen w)).
Proof.
  apply (lasts_trans 0 TIMEOUT 0 600 w (atCommandSend cmd rspLen w));
    [apply lasts_atCommandSend | apply lasts_check].
Qed.

Lemma now_AtModeDefault (w : World) :
  exists d, 6001 <= d <= 6001 + TIMEOUT /\
            now (AtModeDefault w) = wrap32 (now w + d).
Proof.
  rewrite AtModeDefault_unfold.
  remember (SerialBreak true (println msg_forcing w)) as w0 eqn:E0.
  assert (N0 : now w0 = now w) by (rewrite E0; reflexivity).
  remember (stamp (SerialBreak false (delay 6000 w0))) as wa eqn:Ea.
  assert (Na : now wa = wrap32 (now w + 6000)).
  { rewrite Ea.
    destruct (stamp_frame (SerialBreak false (delay 6000 w0))) as (_&_&_&_&_&_& S7).
    destruct (SerialBreak_frame false (delay 6000 w0)) as (_ & _ & _ & _ & B5).
    rewrite S7, B5, now_delay, N0 by lia. reflexivity. }
  assert (Ra : 0 <= now wa < 2 ^ 32) by (rewrite Na; apply wrap32_range).
  destruct (lasts_atRspReceive rspStrSize wa Ra) as (_ & d & Bd & Nd).
  destruct (stamp_frame (delay 1 (snd (atRspReceive rspStrSize wa))))
    as (_&_&_&_&_&_& S7).
  exists (6001 + d). split; [lia|].
  rewrite S7, now_delay, Nd, wrap32_add_l, Na, <- Z.add_assoc, wrap32_add_l by lia.
  f_equal. lia.
Qed.

(** X9.  [AtModeDefault] takes at least 6001 ms and at most 16001 ms, and
    it leaves the session fresh: [msLastCmd] is the time of its return,
    so the dispatch of [AT] that follows it is never refused, not even
    after the reader has run into its deadline. *)
Theorem AtModeDefault_duration (cmd : list ascii) (rspLen : Z) (w : World) :
  (exists d, 6001 <= d <= 16001 /\ now (AtModeDefault w) = wrap32 (now w + d)) /\
  msLastCmd (AtModeDefault w) = now (AtModeDefault w) /\
  elapsed (AtModeDefault w) = 0 /\
  dispatched (text cmd) (AtModeDefault w) (atCommandSend cmd rspLen (AtModeDefault w)).
Proof.
  destruct (now_AtModeDefault w) as (d & Bd & Nd).
  destruct (AtModeDefault_frame w) as (_ & _ & He).
  split; [exists d; unfold TIMEOUT in Bd; split; [lia | exact Nd]|].
  split; [|split; [exact He|]].
  - rewrite AtModeDefault_unfold.
    match goal with |- context [stamp ?x] =>
      destruct (stamp_frame x) as (_&_&_&_&_& S6 & S7) end.
    rewrite S6, S7. reflexivity.
  - apply atCommandSend_dispatched, stale_false_iff. rewrite He. unfold TIMEOUT. lia.
Qed.

Lemma lasts_prep_ApplyBaud (speed : Z) (w : World) :
  lasts 0 600 (after_VerifyMode w) (prep_ApplyBaud speed w).
Proof.
  rewrite prep_ApplyBaud_unfold.
  destruct (fill_sendStr_frame (fst (pick_code speed (after_VerifyMode w)))
              (snd (pick_code speed (after_VerifyMode w)))) as (_&_&_&_& N).
  destruct (baudCode speed) as [c|] eqn:Hc.
  - rewrite (pick_code_supported speed c _ Hc) in *. cbn [fst snd] in *.
    apply (lasts_weaken 0 0); [lia | lia | now apply lasts_same].
  - rewrite (pick_code_unsupported speed _ Hc) in *. cbn [fst snd] in *.
    apply (lasts_weaken 600 600); [lia | lia |].
    apply lasts_exact. rewrite N. apply now_exitFail.
Qed.

Lemma now_Speed_set (rate : Z) (w : World) : now (Speed_set rate w) = now w.
Proof. reflexivity. Qed.

Lemma lasts_ForceMode (w : World) :
  lasts 0 600 (exch_ForceMode w) (after_ForceMode w).
Proof. unfold after_ForceMode. apply lasts_check. Qed.

Lemma lasts_VerifyMode (w : World) :
  lasts 0 (TIMEOUT + 600) (after_ForceMode w) (after_VerifyMode w).
Proof. unfold after_VerifyMode, exch_VerifyMode. apply lasts_step. Qed.

Lemma lasts_ApplyBaud (speed : Z) (w : World) :
  lasts 0 (TIMEOUT + 600) (prep_ApplyBaud speed w) (after_ApplyBaud speed w).
Proof. unfold after_ApplyBaud, exch_ApplyBaud. apply lasts_step. Qed.

Lemma lasts_Persist (speed : Z) (w : World) :
  lasts 0 (TIMEOUT + 600) (after_ApplyBaud speed w) (after_Persist speed w).
Proof. unfold after_Persist, exch_Persist. apply lasts_step. Qed.

Lemma lasts_ExitMode (speed : Z) (w : World) :
  lasts 0 (TIMEOUT + 600) (after_Persist speed w) (after_ExitMode speed w).
Proof. unfold after_ExitMode, exch_ExitMode. apply lasts_step. Qed.

(** X10.  [DeviceSpeed] always returns, between 6001 ms and 59601 ms after
    it was called: the break sequence, at most four exchanges of at most
    [TIMEOUT] ms each, and at most six failure reports of 600 ms. *)
Theorem DeviceSpeed_duration (w : World) :
  exists d, 6001 <= d <= 59601 /\ now (DeviceSpeed w) = wrap32 (now w + d).
Proof.
  rewrite DeviceSpeed_unfold, now_Speed_set.
  destruct (now_AtModeDefault (Speed_set 9600 w)) as (d0 & B0 & N0).
  rewrite now_Speed_set in N0.
  assert (N0' : now (exch_ForceMode w) = wrap32 (now w + d0)) by exact N0.
  assert (R0 : 0 <= now (exch_ForceMode w) < 2 ^ 32)
    by (rewrite N0'; apply wrap32_range).
  pose proof (lasts_trans _ _ _ _ _ _ _ (lasts_ForceMode w) (lasts_VerifyMode w)) as L1.
  pose proof (lasts_trans _ _ _ _ _ _ _ L1 (lasts_prep_ApplyBaud (baud w) w)) as L2.
  pose proof (lasts_trans _ _ _ _ _ _ _ L2 (lasts_ApplyBaud (baud w) w)) as L3.
  pose proof (lasts_trans _ _ _ _ _ _ _ L3 (lasts_Persist (baud w) w)) as L4.
  pose proof (lasts_trans _ _ _ _ _ _ _ L4 (lasts_ExitMode (baud w) w)) as L5.
  destruct (L5 R0) as (_ & d1 & B1 & N1).
  exists (d0 + d1). unfold TIMEOUT in *. split; [lia|].
  rewrite N1, N0', wrap32_add_l. f_equal. lia.
Qed.

(** * The break line *)

Lemma breaks_app (l1 l2 : list Event) : breaks (l1 ++ l2) = breaks l1 ++ breaks l2.
Proof.
  induction l1 as [|e l1 IH]; [reflexivity|].
  destruct e; cbn [breaks app]; rewrite IH; reflexivity.
Qed.

Lemma breaks_quiet (l : list Event) : Forall no_break l -> breaks l = [].
Proof.
  induction 1 as [|e l He _ IH]; [reflexivity|].
  destruct e; cbn [breaks]; try exact IH. destruct He.
Qed.

Lemma steady_breaks (w w' : World) :
  steady w w' -> brk w' = brk w /\ breaks (log w') = breaks (log w).
Proof.
  intros [B (l & E & F)]. split; [exact B|].
  rewrite E, breaks_app, (breaks_quiet l F). apply app_nil_r.
Qed.

Lemma steady_trans (w1 w2 w3 : World) : steady w1 w2 -> steady w2 w3 -> steady w1 w3.
Proof.
  intros [B1 G1] [B2 G2]. split; [congruence | eapply grows_trans; eassumption].
Qed.

Lemma sent_brk (cmd : list ascii) (w : World) :
  brk (stamp (Send [CR; NUL] (println (text cmd) (Send cmd w)))) = brk w.
Proof. reflexivity. Qed.

Lemma steady_atCommandSend (cmd : list ascii) (rspLen : Z) (w : World) :
  steady w (atCommandSend cmd rspLen w).
Proof.
  split; [|apply atCommandSend_grows; intros; exact I].
  destruct (stale w) eqn:Hs.
  - now rewrite (atCommandSend_stale cmd rspLen w Hs).
  - rewrite (atCommandSend_fresh cmd rspLen w Hs).
    destruct (atRspReceive_frame rspLen
                (stamp (Send [CR; NUL] (println (text cmd) (Send cmd w)))))
      as (_ & B & _).
    rewrite B. apply sent_brk.
Qed.

Lemma steady_check (message : string) (w : World) : steady w (check message w).
Proof.
  split; [|apply check_grows; exact I].
  unfold check. destruct (affirmative w); [reflexivity|].
  destruct (exitFail_frame message w) as (_ & B & _). exact B.
Qed.

Lemma steady_step (message : string) (cmd : list ascii) (rspLen : Z) (w : World) :
  steady w (check message (atCommandSend cmd rspLen w)).
Proof.
  eapply steady_trans; [apply steady_atCommandSend | apply steady_check].
Qed.

Lemma fill_sendStr_brk (c : ascii) (w : World) : brk (fill_sendStr c w) = brk w.
Proof. reflexivity. Qed.

Lemma Speed_set_brk (rate : Z) (w : World) : brk (Speed_set rate w) = brk w.
Proof. reflexivity. Qed.

Lemma steady_prep_ApplyBaud (speed : Z) (w : World) :
  steady (after_VerifyMode w) (prep_ApplyBaud speed w).
Proof.
  rewrite prep_ApplyBaud_unfold.
  destruct (fill_sendStr_frame (fst (pick_code speed (after_VerifyMode w)))
              (snd (pick_code speed (after_VerifyMode w)))) as (_ & L & _).
  eapply steady_trans;
    [|split; [apply fill_sendStr_brk | apply grows_same_log; exact L]].
  destruct (baudCode speed) as [c|] eqn:E.
  - rewrite (pick_code_supported speed c _ E).
    split; [reflexivity | apply grows_refl].
  - rewrite (pick_code_unsupported speed _ E). cbn [snd].
    destruct (exitFail_frame msg_invalid (after_VerifyMode w)) as (_ & B & _).
    split; [exact B | apply exitFail_grows; exact I].
Qed.

Lemma steady_after_ForceMode (speed : Z) (w : World) :
  steady (exch_ForceMode w) (after_ExitMode speed w).
Proof.
  eapply steady_trans; [|unfold after_ExitMode, exch_ExitMode; apply steady_step].
  eapply steady_trans; [|unfold after_Persist, exch_Persist; apply steady_step].
  eapply steady_trans; [|unfold after_ApplyBaud, exch_ApplyBaud; apply steady_step].
  eapply steady_trans; [|apply steady_prep_ApplyBaud].
  eapply steady_trans; [|unfold after_VerifyMode, exch_VerifyMode; apply steady_step].
  unfold after_ForceMode. apply steady_check.
Qed.

Lemma AtModeDefault_breaks (w : World) :
  brk (AtModeDefault w) = false /\
  breaks (log (AtModeDefault w)) = breaks (log w) ++ [true; false].
Proof.
  rewrite AtModeDefault_unfold.
  remember (stamp (SerialBreak false (delay 6000
              (SerialBreak true (println msg_forcing w))))) as wa eqn:Ewa.
  destruct (stamp_frame (delay 1 (snd (atRspReceive rspStrSize wa))))
    as (_ & _ & _ & S4 & S5 & _).
  destruct (delay_frame 1 (snd (atRspReceive rspStrSize wa)))
    as (_ & D2 & _ & _ & _ & D6 & _).
  destruct (atRspReceive_frame rspStrSize wa) as (_ & R2 & _).
  destruct (atRspReceive_grows no_break rspStrSize wa) as (l & El & Fl);
    try (intros; exact I).
  assert (Ba : brk wa = false) by (rewrite Ewa; reflexivity).
  assert (La : breaks (log wa) = breaks (log w) ++ [true; false]).
  { rewrite Ewa.
    destruct (stamp_frame (SerialBreak false (delay 6000
                (SerialBreak true (println msg_forcing w))))) as (_&_&_&_& T5 & _).
    destruct (SerialBreak_frame false (delay 6000
                (SerialBreak true (println msg_forcing w)))) as (_ & _ & B3 & _).
    destruct (delay_frame 6000 (SerialBreak true (println msg_forcing w)))
      as (_ & _ & _ & _ & _ & E6 & _).
    rewrite T5, B3, E6, !breaks_app. cbn [breaks].
    assert (L0 : breaks (log (SerialBreak true (println msg_forcing w)))
                 = breaks (log w) ++ [true]).
    { unfold SerialBreak. fields. rewrite !breaks_app. cbn [breaks].
      now rewrite app_nil_r. }
    rewrite L0, !app_nil_r, <- app_assoc. reflexivity. }
  split.
  - rewrite S4, D2, R2. exact Ba.
  - rewrite S5, D6, El, !breaks_app, (breaks_quiet l Fl), La. cbn [breaks].
    now rewrite !app_nil_r.
Qed.

(** X11.  In every run of [DeviceSpeed] the break is asserted once and
    released once, and nothing touches the line afterwards: whatever
    the modem does and whichever steps fail, the break line is released
    when [DeviceSpeed] returns. *)
Theorem DeviceSpeed_break_released (w : World) :
  brk (DeviceSpeed w) = false /\
  breaks (log (DeviceSpeed w)) = breaks (log w) ++ [true; false].
Proof.
  rewrite DeviceSpeed_unfold.
  destruct (steady_breaks _ _ (steady_after_ForceMode (baud w) w)) as [B L].
  destruct (AtModeDefault_breaks (Speed_set 9600 w)) as [B0 L0].
  fold (exch_ForceMode w) in B0, L0.
  destruct (Speed_set_frame (baud w) (after_ExitMode (baud w) w)) as (_ & Ls).
  destruct (Speed_set_frame 9600 w) as (_ & Ls0).
  assert (Bs : brk (Speed_set (baud w) (after_ExitMode (baud w) w))
               = brk (after_ExitMode (baud w) w)) by apply Speed_set_brk.
  split.
  - rewrite Bs, B. exact B0.
  - rewrite Ls, breaks_app, L, L0, Ls0, breaks_app. cbn [breaks].
    now rewrite !app_nil_r.
Qed.

(** * The table of device codes, read both ways *)

(** X12.  The [switch] of [DeviceSpeed] gives a code exactly to the ten
    supported rates; no two rates share a code, and no rate has the code
    [0] that [baudRate] starts with: [ATBD 0] stands for a rate without
    a code, and for nothing else. *)
Theorem baudCode_table (r1 r2 : Z) (c : ascii) :
  (baudCode r1 = Some c ->
   In r1 supported_rates /\ c <> "0"%char /\ c <> NUL) /\
  (baudCode r1 = Some c -> baudCode r2 = Some c -> r1 = r2) /\
  (code_of r1 = "0"%char <-> ~ In r1 supported_rates).
Proof.
  assert (P1 : forall r d, baudCode r = Some d ->
                           In r supported_rates /\ d <> "0"%char /\ d <> NUL).
  { intros r d. unfold baudCode, supported_rates. cbn [In].
    repeat match goal with
           | |- context [r =? ?k] => destruct (Z.eqb_spec r k) as [->|_]
           end; intros H; try discriminate H; injection H as <-;
      (split; [tauto | split; discriminate]). }
  split; [apply P1|]. split.
  - unfold baudCode.
    repeat match goal with
           | |- context [r1 =? ?k] => destruct (Z.eqb_spec r1 k) as [->|_]
           end;
    repeat match goal with
           | |- context [r2 =? ?k] => destruct (Z.eqb_spec r2 k) as [->|_]
           end; intros H1 H2; try reflexivity; try discriminate H1;
      try discriminate H2; congruence.
  - unfold code_of. destruct (baudCode r1) as [d|] eqn:E.
    + destruct (P1 r1 d E) as (Hin & H0 & _). tauto.
    + split; [|reflexivity]. intros _ Hin.
      destruct (baudCode_supported r1 Hin) as (d & Hd). congruence.
Qed.

Lemma baudCode_table_witness :
  In 19200 supported_rates /\ (baudCode 115200 = Some "4"%char -> 19200 = 115200).
Proof.
  destruct (baudCode_table 19200 115200 "4") as (H1 & H2 & _).
  split; [apply H1; reflexivity | apply H2; reflexivity].
Defined.

(** * The command buffer *)

Lemma sendStr_fill_sendStr (c : ascii) (w : World) :
  sendStr (fill_sendStr c w)
  = poke 6 NUL (poke 5 c (poke 4 " "%char (poke 3 "D"%char (poke 2 "B"%char
      (poke 1 "T"%char (poke 0 "A"%char (sendStr w))))))).
Proof. reflexivity. Qed.

Lemma sendStr_Speed_set (rate : Z) (w : World) : sendStr (Speed_set rate w) = sendStr w.
Proof. reflexivity. Qed.

Lemma sendStr_step (message : string) (cmd : list ascii) (rspLen : Z) (w : World) :
  sendStr (check message (atCommandSend cmd rspLen w)) = sendStr w.
Proof.
  destruct (check_frame message (atCommandSend cmd rspLen w)) as (_ & _ & -> & _).
  destruct (atCommandSend_frame cmd rspLen w) as (_ & ->). reflexivity.
Qed.

Lemma sendStr_DeviceSpeed (w : World) :
  sendStr (DeviceSpeed w) = sendStr (prep_ApplyBaud (baud w) w).
Proof.
  rewrite DeviceSpeed_unfold, sendStr_Speed_set.
  unfold after_ExitMode, exch_ExitMode. rewrite sendStr_step.
  unfold after_Persist, exch_Persist. rewrite sendStr_step.
  unfold after_ApplyBaud, exch_ApplyBaud. rewrite sendStr_step. reflexivity.
Qed.

(** X14.  Whatever happens in the run, [DeviceSpeed] leaves in [sendStr]
    the command [ATBD <code>] for the host's rate, as a C string; it
    writes the first seven cells of the buffer and none behind them. *)
Theorem DeviceSpeed_command_buffer (w : World) :
  length (sendStr w) = 10%nat ->
  text (sendStr (DeviceSpeed w)) = atbd (code_of (baud w)) /\
  skipn 7 (sendStr (DeviceSpeed w)) = skipn 7 (sendStr w) /\
  length (sendStr (DeviceSpeed w)) = 10%nat.
Proof.
  intros Hlen. rewrite sendStr_DeviceSpeed.
  split; [apply text_prep_ApplyBaud, Hlen|].
  rewrite prep_ApplyBaud_unfold, sendStr_fill_sendStr, sendStr_pick_code,
    sendStr_after_VerifyMode.
  split.
  - rewrite !skipn_poke by lia. reflexivity.
  - rewrite !poke_length. exact Hlen.
Qed.

Lemma DeviceSpeed_command_buffer_witness :
  text (sendStr (DeviceSpeed w_unsupported)) = "ATBD 0"%string /\
  text (sendStr (DeviceSpeed w_ok)) = "ATBD 4"%string.
Proof.
  split.
  - destruct (DeviceSpeed_command_buffer w_unsupported) as (H & _); [reflexivity|].
    exact H.
  - destruct (DeviceSpeed_command_buffer w_ok) as (H & _); [reflexivity|].
    exact H.
Defined.

(** * [setup] *)

Lemma setup_unfold (usb_wait : nat) (w : World) :
  setup usb_wait w = DeviceSpeed (Speed_set 19200 (ticks usb_wait w)).
Proof. reflexivity. Qed.

(** X13.  [setup], once the console is up, leaves the host at 19200
    whatever the modem does, and the only baud command it can send is
    [ATBD 4]: what it sends is [AT], and then [ATBD 4], [ATWR] and
    [ATCN], each or none of them, every command with its carriage
    return. *)
Theorem setup_rate_and_commands (usb_wait : nat) (w : World) :
  length (sendStr w) = 10%nat ->
  baud (setup usb_wait w) = 19200 /\
  exists b2 b3 b4 : bool,
    sends (log (setup usb_wait w))
    = sends (log w) ++ ["AT"%string; CR_text]
      ++ (if b2 then ["ATBD 4"%string; CR_text] else [])
      ++ (if b3 then ["ATWR"%string; CR_text] else [])
      ++ (if b4 then ["ATCN"%string; CR_text] else []).
Proof.
  intros Hlen. rewrite setup_unfold.
  destruct (ticks_frame usb_wait w) as (_ & _ & _ & Hs & _ & Hl & _).
  remember (Speed_set 19200 (ticks usb_wait w)) as w1 eqn:E1.
  assert (B1 : baud w1 = 19200) by (rewrite E1; reflexivity).
  assert (S1 : length (sendStr w1) = 10%nat)
    by (rewrite E1, sendStr_Speed_set, Hs; exact Hlen).
  assert (L1 : sends (log w1) = sends (log w)).
  { rewrite E1. destruct (Speed_set_frame 19200 (ticks usb_wait w)) as (_ & L).
    rewrite L, sends_app, Hl. cbn [sends]. apply app_nil_r. }
  split.
  - rewrite DeviceSpeed_unfold.
    destruct (Speed_set_frame (baud w1) (after_ExitMode (baud w1) w1)) as (B & _).
    rewrite B. exact B1.
  - rewrite DeviceSpeed_sends_aux, (text_prep_ApplyBaud (baud w1) w1 S1), L1, B1.
    exists (negb (stale (prep_ApplyBaud 19200 w1))),
           (negb (stale (after_ApplyBaud 19200 w1))),
           (negb (stale (after_Persist 19200 w1))).
    destruct (stale (prep_ApplyBaud 19200 w1)),
             (stale (after_ApplyBaud 19200 w1)),
             (stale (after_Persist 19200 w1)); reflexivity.
Qed.

Lemma setup_witness :
  baud (setup 250 (boot 115200 [])) = 19200.
Proof.
  destruct (setup_rate_and_commands 250 (boot 115200 [])) as (H & _);
    [reflexivity | exact H].
Defined.

(** * The receive queue is never flushed *)

Lemma scan_true_length (room : nat) :
  forall s : list ascii,
    fst (scan room s) = true -> (length (snd (scan room s)) < room)%nat.
Proof.
  induction room as [|room IH]; intros [|c s]; cbn [scan fst snd length];
    try discriminate.
  destruct (Ascii.eqb c CR); cbn [fst snd length]; [lia|].
  specialize (IH s). destruct (scan room s) as [r t]. cbn [fst snd length] in *.
  intros H. specialize (IH H). lia.
Qed.

Lemma reads_same (w w' : World) : pending w' = pending w -> reads 0 w w'.
Proof. intros H. exists []. rewrite H. split; [reflexivity | cbn; lia]. Qed.

Lemma reads_trans (n m : nat) (w1 w2 w3 : World) :
  reads n w1 w2 -> reads m w2 w3 -> reads (n + m) w1 w3.
Proof.
  intros (t1 & P1 & L1) (t2 & P2 & L2). exists (t1 ++ t2). split.
  - rewrite P1, P2, app_assoc. reflexivity.
  - rewrite length_app. lia.
Qed.

Lemma reads_atRspReceive (rspLen : Z) (w : World) :
  reads (cap rspLen) w (snd (atRspReceive rspLen w)).
Proof.
  destruct (atRspReceive_spec rspLen w)
    as (r & t & w' & Hrun & Hscan & _ & Hpend & _).
  rewrite Hrun. cbn [snd]. exists (taken_bytes r t). split; [exact Hpend|].
  pose proof (scan_props (cap rspLen) (visible w)) as (_ & Hle & _).
  pose proof (scan_true_length (cap rspLen) (visible w)) as Hlt.
  rewrite <- Hscan in Hle, Hlt. cbn [fst snd] in Hle, Hlt.
  unfold taken_bytes. rewrite length_app. destruct r; cbn [length].
  - specialize (Hlt eq_refl). lia.
  - lia.
Qed.

Lemma sent_pending (cmd : list ascii) (w : World) :
  pending (stamp (Send [CR; NUL] (println (text cmd) (Send cmd w)))) = pending w.
Proof. reflexivity. Qed.

Lemma reads_atCommandSend (cmd : list ascii) (rspLen : Z) (w : World) :
  reads (cap rspLen) w (atCommandSend cmd rspLen w).
Proof.
  destruct (stale w) eqn:Hs.
  - rewrite (atCommandSend_stale cmd rspLen w Hs).
    exists []. split; [reflexivity | cbn; lia].
  - rewrite (atCommandSend_fresh cmd rspLen w Hs).
    destruct (reads_atRspReceive rspLen
                (stamp (Send [CR; NUL] (println (text cmd) (Send cmd w)))))
      as (t & P & L).
    rewrite sent_pending in P. exists t. split; assumption.
Qed.

#[local] Transparent exitFail.

Lemma pending_exitFail (message : string) (w : World) :
  pending (exitFail message w) = pending w.
Proof.
  unfold exitFail.
  destruct (delay_frame 600 (println message w)) as (_&_&_&_&_&_& P).
  rewrite P. reflexivity.
Qed.

#[global] Opaque exitFail.

Lemma reads_check (message : string) (w : World) : reads 0 w (check message w).
Proof.
  apply reads_same. unfold check. destruct (affirmative w); [reflexivity|].
  apply pending_exitFail.
Qed.

Lemma reads_step (message : string) (cmd : list ascii) (rspLen : Z) (w : World) :
  reads (cap rspLen + 0) w (check message (atCommandSend cmd rspLen w)).
Proof.
  eapply reads_trans; [apply reads_atCommandSend | apply reads_check].
Qed.

Lemma pending_fill_sendStr (c : ascii) (w : World) :
  pending (fill_sendStr c w) = pending w.
Proof. reflexivity. Qed.

Lemma pending_Speed_set (rate : Z) (w : World) : pending (Speed_set rate w) = pending w.
Proof. reflexivity. Qed.

Lemma reads_prep_ApplyBaud (speed : Z) (w : World) :
  reads 0 (after_VerifyMode w) (prep_ApplyBaud speed w).
Proof.
  apply reads_same. rewrite prep_ApplyBaud_unfold, pending_fill_sendStr.
  destruct (baudCode speed) as [c|] eqn:E.
  - now rewrite (pick_code_supported speed c _ E).
  - rewrite (pick_code_unsupported speed _ E). apply pending_exitFail.
Qed.

Lemma reads_AtModeDefault (w : World) : reads (cap rspStrSize) w (AtModeDefault w).
Proof.
  rewrite AtModeDefault_unfold.
  remember (stamp (SerialBreak false (delay 6000
              (SerialBreak true (println msg_forcing w))))) as wa eqn:Ewa.
  assert (Pa : pending wa = pending w).
  { rewrite Ewa.
    assert (H : forall x, pending (stamp (SerialBreak false x)) = pending x)
      by reflexivity.
    rewrite H.
    destruct (delay_frame 6000 (SerialBreak true (println msg_forcing w)))
      as (_&_&_&_&_&_& P).
    rewrite P. reflexivity. }
  destruct (reads_atRspReceive rspStrSize wa) as (t & P & L).
  exists t. split; [|exact L].
  assert (H : forall x, pending (stamp x) = pending x) by reflexivity.
  destruct (delay_frame 1 (snd (atRspReceive rspStrSize wa))) as (_&_&_&_&_&_& D).
  rewrite H, D, <- Pa. exact P.
Qed.

(** X15.  [DeviceSpeed] never flushes the receive queue and never drops
    a byte: the bytes it has taken are the first of the incoming stream,
    at most nine for each of its five readers, and everything behind
    them is still to be read, in order, when it returns.  A reply that
    comes late, or the rest of one that was too long, is what the next
    reader gets. *)
Theorem DeviceSpeed_reads_in_order (w : World) :
  exists taken : list ascii,
    pending w = taken ++ pending (DeviceSpeed w) /\ (length taken <= 45)%nat.
Proof.
  rewrite DeviceSpeed_unfold, pending_Speed_set.
  pose proof (reads_AtModeDefault (Speed_set 9600 w)) as R0.
  fold (exch_ForceMode w) in R0.
  pose proof (reads_trans _ _ _ _ _ R0 (reads_check msg_establish (exch_ForceMode w)))
    as R1.
  fold (after_ForceMode w) in R1.
  pose proof (reads_trans _ _ _ _ _ R1
                (reads_step msg_verify (lit "AT") rspStrSize (after_ForceMode w))) as R2.
  fold (exch_VerifyMode w) in R2. fold (after_VerifyMode w) in R2.
  pose proof (reads_trans _ _ _ _ _ R2 (reads_prep_ApplyBaud (baud w) w)) as R3.
  pose proof (reads_trans _ _ _ _ _ R3
                (reads_step msg_set (sendStr (prep_ApplyBaud (baud w) w)) rspStrSize
                   (prep_ApplyBaud (baud w) w))) as R4.
  fold (exch_ApplyBaud (baud w) w) in R4. fold (after_ApplyBaud (baud w) w) in R4.
  pose proof (reads_trans _ _ _ _ _ R4
                (reads_step msg_write (lit "ATWR") rspStrSize
                   (after_ApplyBaud (baud w) w))) as R5.
  fold (exch_Persist (baud w) w) in R5. fold (after_Persist (baud w) w) in R5.
  pose proof (reads_trans _ _ _ _ _ R5
                (reads_step msg_exit (lit "ATCN") rspStrSize
                   (after_Persist (baud w) w))) as R6.
  fold (exch_ExitMode (baud w) w) in R6. fold (after_ExitMode (baud w) w) in R6.
  destruct R6 as (taken & P & L). rewrite pending_Speed_set in P.
  exists taken. split; [exact P|].
  change (cap rspStrSize) with 9%nat in L. lia.
Qed.
